(** * Stock-Market-Alert-System: indicator library and alert engine

    A shallow embedding of the numeric and alert-lifecycle code of the
    repository:

    - [TechnicalIndicators] (stockController) and the identical static
      methods of [StockService] (server/services/stockService.js):
      calculateSMA, calculateEMA, calculateRSI, calculateMACD,
      calculateBollingerBands;
    - [evaluateCondition] of the alert controller;
    - the two Mongoose [Alert] models: the one with [triggered] /
      [expiresAt] ([ExpiringAlert] below) and the one with
      [lastTriggered] / [cooldownPeriod] ([CooldownAlert] below);
    - the indicator snapshot of getStockHistory ([StockController]), the
      "test alert" endpoint ([AlertTest]), the subscription check and the
      rate limiter of the authentication middleware ([Auth]), and the
      signals of the StockData model ([StockData]).

    Modelling choices.
    - A JavaScript Number that holds a price or an indicator is an exact
      rational ([Q]); rounding, NaN and the infinities are outside the model.
      A division by zero therefore has no counterpart here, and every
      statement that depends on the value of a quotient assumes a window of
      at least one element ([1 <= period]).  Equality of results is [Qeq]
      ([==]) unless both sides are built by the same operations.
    - [null] / [undefined] is [None]; a function that returns either [null]
      or a number returns [option Q].
    - A window size ([period]) is a natural number.
    - A [Date] is its millisecond time stamp ([Z]); [new Date()] and
      [Date.now()] are the explicit argument [now]. *)

From Stdlib Require Import Ascii String ZArith QArith Qabs Qminmax Bool List Lia Lqa.
Import ListNotations.

Open Scope Q_scope.

(** ** JavaScript primitives used by the code *)

Module Js.

(** A count used as a Number ([sum / period]). *)
Definition of_nat (n : nat) : Q := inject_Z (Z.of_nat n).

(** [x < y] and [x > y] on Numbers. *)
Definition ltb (x y : Q) : bool := negb (Qle_bool y x).
Definition gtb (x y : Q) : bool := ltb y x.
Definition leb (x y : Q) : bool := Qle_bool x y.
Definition geb (x y : Q) : bool := Qle_bool y x.

(** [x === y] on Numbers. *)
Definition strict_eq (x y : Q) : bool := Qeq_bool x y.

(** [!x] for [x] a Number or [null]: [null] and [0] are falsy. *)
Definition falsy (x : option Q) : bool :=
  match x with
  | None => true
  | Some v => Qeq_bool v 0
  end.

(** [a.slice(-n)]: the last [n] elements (all of them when [n] exceeds the
    length); [a.slice(-0)] is [a.slice(0)], the whole array. *)
Definition slice_last {A : Type} (n : nat) (a : list A) : list A :=
  match n with
  | O => a
  | _ => skipn (length a - n) a
  end.

(** [a.slice(0, n)]. *)
Definition slice_first {A : Type} (n : nat) (a : list A) : list A :=
  firstn n a.

(** [a.reduce((acc, x) => acc + x, 0)]. *)
Definition sum (a : list Q) : Q := fold_left Qplus a 0.

(** [a[i]] for an index inside the array (the loops below never leave it). *)
Definition get (a : list Q) (i : nat) : Q := nth i a 0.

End Js.

(** ** Technical indicators *)

Module TechnicalIndicators.

(** calculateSMA(prices, period) *)
Definition calculateSMA (prices : list Q) (period : nat) : option Q :=
  if (length prices <? period)%nat then None
  else
    let sum := Js.sum (Js.slice_last period prices) in
    Some (sum / Js.of_nat period).

(** The body of [for (let i = period; i < prices.length; i++)] in
    calculateEMA: [n] iterations are left, the next index is [i]. *)
Fixpoint ema_loop (prices : list Q) (multiplier : Q) (n i : nat) (ema : Q) : Q :=
  match n with
  | O => ema
  | S n' =>
      ema_loop prices multiplier n' (S i)
               ((Js.get prices i - ema) * multiplier + ema)
  end.

(** calculateEMA(prices, period) *)
Definition calculateEMA (prices : list Q) (period : nat) : option Q :=
  if (length prices <? period)%nat then None
  else
    let multiplier := 2 / (Js.of_nat period + 1) in
    let ema := Js.sum (Js.slice_first period prices) / Js.of_nat period in
    Some (ema_loop prices multiplier (length prices - period) period ema).

(** The body of [for (let i = 1; i < prices.length; i++)] in calculateRSI:
    each step pushes one gain and one loss. *)
Fixpoint rsi_loop (prices : list Q) (n i : nat) (gains losses : list Q)
  : list Q * list Q :=
  match n with
  | O => (gains, losses)
  | S n' =>
      let change := Js.get prices i - Js.get prices (i - 1) in
      rsi_loop prices n' (S i)
               (gains ++ [if Js.gtb change 0 then change else 0])
               (losses ++ [if Js.ltb change 0 then Qabs change else 0])
  end.

(** calculateRSI(prices, period = 14) *)
Definition calculateRSI (prices : list Q) (period : nat) : option Q :=
  if (length prices <? period + 1)%nat then None
  else
    let '(gains, losses) := rsi_loop prices (length prices - 1) 1 [] [] in
    if (length gains <? period)%nat then None
    else
      let avgGain := Js.sum (Js.slice_last period gains) / Js.of_nat period in
      let avgLoss := Js.sum (Js.slice_last period losses) / Js.of_nat period in
      if Js.strict_eq avgLoss 0 then Some 100
      else
        let rs := avgGain / avgLoss in
        Some (100 - (100 / (1 + rs))).

(** The object returned by TechnicalIndicators.calculateMACD. *)
Record Macd : Type := mkMacd {
  macd : Q;
  signal : option Q;
  histogram : option Q
}.

(** TechnicalIndicators.calculateMACD(prices, fastPeriod = 12,
    slowPeriod = 26, signalPeriod = 9); the body never reads
    [signalPeriod]. *)
Definition calculateMACD (prices : list Q) (fastPeriod slowPeriod : nat)
  : option Macd :=
  if (length prices <? slowPeriod)%nat then None
  else
    let ema12 := calculateEMA prices fastPeriod in
    let ema26 := calculateEMA prices slowPeriod in
    if Js.falsy ema12 || Js.falsy ema26 then None
    else
      match ema12, ema26 with
      | Some e12, Some e26 =>
          let macdLine := e12 - e26 in
          Some {| macd := macdLine; signal := None; histogram := None |}
      | _, _ => None
      end.

(** The bands returned by calculateBollingerBands. *)
Record Bands : Type := mkBands {
  upper : Q;
  middle : Q;
  lower : Q
}.

Section Bollinger.

(** [Math.sqrt], which has no rational counterpart, is a parameter. *)
Variable Math_sqrt : Q -> Q.

(** calculateBollingerBands(prices, period = 20, multiplier = 2) *)
Definition calculateBollingerBands (prices : list Q) (period : nat)
           (multiplier : Q) : option Bands :=
  if (length prices <? period)%nat then None
  else
    let sma := calculateSMA prices period in
    if Js.falsy sma then None
    else
      match sma with
      | None => None
      | Some sma =>
          let recentPrices := Js.slice_last period prices in
          let variance :=
            fold_left (fun sum price => sum + (price - sma) ^ 2)
                      recentPrices 0 / Js.of_nat period in
          let stdDev := Math_sqrt variance in
          Some {| upper := sma + (multiplier * stdDev);
                  middle := sma;
                  lower := sma - (multiplier * stdDev) |}
      end.

End Bollinger.

End TechnicalIndicators.

(** The static methods of [StockService] (server/services/stockService.js).
    calculateSMA, calculateEMA and calculateRSI repeat the text of
    [TechnicalIndicators]; calculateMACD returns the bare MACD line. *)

Module StockService.

Definition calculateSMA := TechnicalIndicators.calculateSMA.
Definition calculateEMA := TechnicalIndicators.calculateEMA.
Definition calculateRSI := TechnicalIndicators.calculateRSI.

(** StockService.calculateMACD(prices, fastPeriod = 12, slowPeriod = 26) *)
Definition calculateMACD (prices : list Q) (fastPeriod slowPeriod : nat)
  : option Q :=
  if (length prices <? slowPeriod)%nat then None
  else
    let ema12 := calculateEMA prices fastPeriod in
    let ema26 := calculateEMA prices slowPeriod in
    if Js.falsy ema12 || Js.falsy ema26 then None
    else
      match ema12, ema26 with
      | Some e12, Some e26 => Some (e12 - e26)
      | _, _ => None
      end.

End StockService.

(** ** The alert controller's condition helper *)

Module AlertController.

(** evaluateCondition(currentValue, condition, targetValue): the helper of
    the "test alert" endpoint.  It receives one sample only. *)
Definition evaluateCondition (currentValue : Q) (condition : string)
           (targetValue : Q) : bool :=
  if (condition =? "above")%string then Js.gtb currentValue targetValue
  else if (condition =? "below")%string then Js.ltb currentValue targetValue
  else if (condition =? "equals")%string then
    Js.ltb (Qabs (currentValue - targetValue)) (1 # 1000)
  else if (condition =? "crosses_above")%string then
    Js.gtb currentValue targetValue
  else if (condition =? "crosses_below")%string then
    Js.ltb currentValue targetValue
  else false.

End AlertController.

(** ** Strings built by the pre-save hooks *)

Module JsString.

(** [s.replace('_', ' ')]: only the first underscore is replaced. *)
Fixpoint replace_first_underscore (s : string) : string :=
  match s with
  | EmptyString => EmptyString
  | String c rest =>
      if Ascii.eqb c "_"%char then String " "%char rest
      else String c (replace_first_underscore rest)
  end.

(** [s.toUpperCase()] on the ASCII letters. *)
Definition upper_char (c : Ascii.ascii) : Ascii.ascii :=
  let n := Ascii.nat_of_ascii c in
  if ((97 <=? n) && (n <=? 122))%nat then Ascii.ascii_of_nat (n - 32) else c.

Fixpoint toUpperCase (s : string) : string :=
  match s with
  | EmptyString => EmptyString
  | String c rest => String (upper_char c) (toUpperCase rest)
  end.

(** [!s]: the empty string is falsy. *)
Definition falsy (s : string) : bool := (s =? "")%string.

End JsString.

(** ** The Alert model with [triggered] and [expiresAt] *)

Module ExpiringAlert.

Record t : Type := mk {
  userId : Z;
  symbol : string;
  alertType : string;
  condition : string;
  targetValue : Q;
  indicatorType : option string;
  indicatorPeriod : Z;
  description : string;
  message : option string;
  isActive : bool;
  emailNotification : bool;
  smsNotification : bool;
  pushNotification : bool;
  triggered : bool;
  triggeredAt : option Z;
  triggeredValue : option Q;
  triggerCount : Z;
  lastChecked : option Z;
  expiresAt : option Z;
  frequency : Z
}.

(** [this.expiresAt && this.expiresAt < new Date()] *)
Definition expired (a : t) (now : Z) : bool :=
  match expiresAt a with
  | None => false
  | Some e => (e <? now)%Z
  end.

(** The virtual [status]. *)
Definition status (a : t) (now : Z) : string :=
  if negb (isActive a) then "inactive"
  else if triggered a then "triggered"
  else if expired a now then "expired"
  else "active".

(** The virtual [timeUntilExpiration], in milliseconds. *)
Definition timeUntilExpiration (a : t) (now : Z) : option Z :=
  match expiresAt a with
  | None => None
  | Some e =>
      let timeLeft := (e - now)%Z in
      Some (if (0 <? timeLeft)%Z then timeLeft else 0%Z)
  end.

(** shouldTrigger(currentValue, previousValue = null) *)
Definition shouldTrigger (a : t) (now : Z) (currentValue : Q)
           (previousValue : option Q) : bool :=
  if negb (isActive a) || triggered a then false
  else if expired a now then false
  else
    let target := targetValue a in
    if (condition a =? "above")%string then Js.gtb currentValue target
    else if (condition a =? "below")%string then Js.ltb currentValue target
    else if (condition a =? "equals")%string then
      Js.ltb (Qabs (currentValue - target)) (1 # 100)
    else if (condition a =? "crosses_above")%string then
      match previousValue with
      | None => false
      | Some previous => Js.leb previous target && Js.gtb currentValue target
      end
    else if (condition a =? "crosses_below")%string then
      match previousValue with
      | None => false
      | Some previous => Js.geb previous target && Js.ltb currentValue target
      end
    else false.

Section Save.

(** The text of a Number inside a template literal. *)
Variable show_number : Q -> string.

(** The body of the pre-save hook; [stored] is
    [this.isModified() && !this.isNew] (every clock read of one call is the
    instant [now]). *)
Definition preSaveHook (stored : bool) (a : t) (now : Z) : t :=
  let lastChecked' := if stored then Some now else lastChecked a in
  let description' :=
    if JsString.falsy (description a) then
      (symbol a ++ " " ++ JsString.replace_first_underscore (condition a)
         ++ " " ++ show_number (targetValue a))%string
    else description a in
  mk (userId a) (symbol a) (alertType a) (condition a) (targetValue a)
     (indicatorType a) (indicatorPeriod a) description' (message a)
     (isActive a) (emailNotification a) (smsNotification a)
     (pushNotification a) (triggered a) (triggeredAt a) (triggeredValue a)
     (triggerCount a) lastChecked' (expiresAt a) (frequency a).

(** What [save()] does to the document in memory, inside trigger() and
    reset().  Validation comes before the pre-save hook, and [description]
    is required in this model: on an empty description [save()] rejects,
    the hook does not run and the fields stay as the method left them.
    Otherwise the hook runs on a modified document (taken to be a stored
    one; its write of [lastChecked] repeats the one the method has just
    made). *)
Definition preSave (a : t) (now : Z) : t :=
  if JsString.falsy (description a) then a
  else preSaveHook true a now.

(** The assignments of trigger(). *)
Definition trigger_assign (a : t) (now : Z) : t :=
  mk (userId a) (symbol a) (alertType a) (condition a) (targetValue a)
     (indicatorType a) (indicatorPeriod a) (description a) (message a)
     (isActive a) (emailNotification a) (smsNotification a)
     (pushNotification a) true (Some now) (triggeredValue a)
     (triggerCount a + 1)%Z (Some now) (expiresAt a) (frequency a).

(** trigger(): the assignments, then [save()]. *)
Definition trigger (a : t) (now : Z) : t :=
  preSave (trigger_assign a now) now.

(** reset() *)
Definition reset (a : t) (now : Z) : t :=
  preSave
    (mk (userId a) (symbol a) (alertType a) (condition a) (targetValue a)
        (indicatorType a) (indicatorPeriod a) (description a) (message a)
        (isActive a) (emailNotification a) (smsNotification a)
        (pushNotification a) false None (triggeredValue a)
        (triggerCount a) (Some now) (expiresAt a) (frequency a))
    now.

End Save.

End ExpiringAlert.

(** ** The Alert model with [lastTriggered] and [cooldownPeriod] *)

Module CooldownAlert.

Record Condition : Type := mkCondition {
  indicator : string;
  operator : string;
  value : Q;
  timeframe : string
}.

Record Channel : Type := mkChannel {
  enabled : bool;
  lastSent : option Z
}.

Record Notifications : Type := mkNotifications {
  email : Channel;
  inApp : Channel
}.

Record t : Type := mk {
  user : Z;
  symbol : string;
  alertType : string;
  condition : Condition;
  isActive : bool;
  triggerCount : Z;
  lastTriggered : option Z;
  cooldownPeriod : Z;
  notifications : Notifications;
  description : string;
  tags : list string
}.

(** The virtual [status]. *)
Definition status (a : t) : string :=
  if negb (isActive a) then "inactive"
  else
    match lastTriggered a with
    | Some _ => "triggered"
    | None => "active"
    end.

(** The virtual [isInCooldown]; [cooldownPeriod] is in minutes. *)
Definition isInCooldown (a : t) (now : Z) : bool :=
  match lastTriggered a with
  | None => false
  | Some last =>
      let cooldownMs := (cooldownPeriod a * 60 * 1000)%Z in
      (now - last <? cooldownMs)%Z
  end.

(** canTrigger() *)
Definition canTrigger (a : t) (now : Z) : bool :=
  isActive a && negb (isInCooldown a now).

Section Save.

(** The text of a Number inside a template literal. *)
Variable show_number : Q -> string.

(** The virtual [conditionText]. *)
Definition conditionText (a : t) : string :=
  let c := condition a in
  let operatorText : string :=
    (if operator c =? ">" then "above"
     else if operator c =? "<" then "below"
     else if operator c =? ">=" then "above or equal to"
     else if operator c =? "<=" then "below or equal to"
     else if operator c =? "==" then "equals"
     else if operator c =? "crossover_above" then "crosses above"
     else if operator c =? "crossover_below" then "crosses below"
     else operator c)%string in
  (JsString.toUpperCase (indicator c) ++ " " ++ operatorText ++ " "
     ++ show_number (value c) ++ " (" ++ timeframe c ++ ")")%string.

(** The pre-save hook. *)
Definition preSave (a : t) : t :=
  let description' :=
    if JsString.falsy (description a) then
      ("Alert for " ++ symbol a ++ " when " ++ conditionText a)%string
    else description a in
  mk (user a) (symbol a) (alertType a) (condition a) (isActive a)
     (triggerCount a) (lastTriggered a) (cooldownPeriod a)
     (notifications a) description' (tags a).

(** trigger() *)
Definition trigger (a : t) (now : Z) : t :=
  preSave
    (mk (user a) (symbol a) (alertType a) (condition a) (isActive a)
        (triggerCount a + 1)%Z (Some now) (cooldownPeriod a)
        (notifications a) (description a) (tags a)).

(** reset() *)
Definition reset (a : t) : t :=
  preSave
    (mk (user a) (symbol a) (alertType a) (condition a) (isActive a)
        0%Z None (cooldownPeriod a)
        (notifications a) (description a) (tags a)).

End Save.

End CooldownAlert.

(** ** The indicators as the specification words them

    These definitions follow the prose of the specification, not the code;
    the theorems below compare them with the code. *)

Module Spec.

(** The sum of a sequence. *)
Definition total (xs : list Q) : Q := fold_right Qplus 0 xs.

(** The arithmetic mean of a sequence. *)
Definition mean (xs : list Q) : Q := total xs / Js.of_nat (length xs).

(** EMA: [ema[i]] for an index [i] of the series.  The seed, the mean of
    the first [period] elements, stands at every index below [period];
    from [period] on, [ema[i] = (price[i] - ema[i-1]) * multiplier +
    ema[i-1]] with [multiplier = 2 / (period + 1)]. *)
Fixpoint ema (prices : list Q) (period : nat) (i : nat) : Q :=
  match i with
  | O => mean (firstn period prices)
  | S j =>
      if (i <? period)%nat then mean (firstn period prices)
      else
        let previous := ema prices period j in
        (nth i prices 0 - previous) * (2 / (Js.of_nat period + 1)) + previous
  end.

(** The per-step changes of a series. *)
Fixpoint deltas (prices : list Q) : list Q :=
  match prices with
  | [] => []
  | p :: rest =>
      match rest with
      | [] => []
      | q :: _ => (q - p) :: deltas rest
      end
  end.

Definition gain (delta : Q) : Q := Qmax delta 0.
Definition loss (delta : Q) : Q := Qmax (- delta) 0.

(** The trailing window: the last [n] elements. *)
Definition trailing (n : nat) (xs : list Q) : list Q :=
  rev (firstn n (rev xs)).

Definition avgGain (prices : list Q) (period : nat) : Q :=
  total (trailing period (map gain (deltas prices))) / Js.of_nat period.

Definition avgLoss (prices : list Q) (period : nat) : Q :=
  total (trailing period (map loss (deltas prices))) / Js.of_nat period.

(** RSI: 100 when the average loss is zero, else
    [100 - 100 / (1 + avgGain / avgLoss)]. *)
Definition rsi (prices : list Q) (period : nat) : Q :=
  if Qeq_bool (avgLoss prices period) 0 then 100
  else 100 - 100 / (1 + avgGain prices period / avgLoss prices period).

End Spec.

(** ** Sample inputs *)

Definition sample_prices : list Q := [10; 11; 12; 11; 13; 14].

(** Twenty-six bars at price zero. *)
Definition zero_prices : list Q := repeat 0 26.

(** An integer square root on rationals: exact on the squares of integers. *)
Definition isqrt (x : Q) : Q := inject_Z (Z.sqrt (Qnum x / Zpos (Qden x))).

(** A paused alert whose expiry date, 1000, is in the past at 2000. *)
Definition paused_expired_alert : ExpiringAlert.t :=
  ExpiringAlert.mk 1 "XYZ" "price" "above" 25 None 14 "XYZ above 25" None
                   false true false true false None None 0 None
                   (Some 1000%Z) 5.

(** A live alert on a crossing of 15 that never fired and never expires. *)
Definition crossing_alert : ExpiringAlert.t :=
  ExpiringAlert.mk 1 "XYZ" "price" "crosses_above" 15 None 14
                   "XYZ crosses above 15" None
                   true true false true false None None 0 None None 5.

(** An active alert with the default cooldown of 60 minutes that never
    fired. *)
Definition hourly_alert : CooldownAlert.t :=
  CooldownAlert.mk 1 "XYZ" "price_above"
                   (CooldownAlert.mkCondition "price" ">" 25 "15min")
                   true 0 None 60
                   (CooldownAlert.mkNotifications
                      (CooldownAlert.mkChannel true None)
                      (CooldownAlert.mkChannel true None))
                   "XYZ above 25" [].

(** A printer of Numbers that keeps the integer part only; it stands for
    the conversion of a Number to text in the sample runs. *)
Definition show_integer_part (x : Q) : string :=
  if (Qnum x / Zpos (Qden x) =? 25)%Z then "25" else "0".

(** Minutes as milliseconds. *)
Definition minutes (m : Z) : Z := (m * 60 * 1000)%Z.

(** ** The indicator snapshot of the history endpoint *)

Module StockController.

(** The [indicators] object of getStockHistory. *)
Record Indicators : Type := mkIndicators {
  sma20 : option Q;
  sma50 : option Q;
  ema12 : option Q;
  ema26 : option Q;
  rsi : option Q;
  macd : option TechnicalIndicators.Macd;
  bollingerBands : option TechnicalIndicators.Bands
}.

Section Snapshot.

Variable Math_sqrt : Q -> Q.

(** The indicators that getStockHistory computes from the closes, with the
    default arguments of calculateRSI (14), calculateMACD (12, 26) and
    calculateBollingerBands (20, 2). *)
Definition indicators (closePrices : list Q) : Indicators :=
  {| sma20 := TechnicalIndicators.calculateSMA closePrices 20;
     sma50 := TechnicalIndicators.calculateSMA closePrices 50;
     ema12 := TechnicalIndicators.calculateEMA closePrices 12;
     ema26 := TechnicalIndicators.calculateEMA closePrices 26;
     rsi := TechnicalIndicators.calculateRSI closePrices 14;
     macd := TechnicalIndicators.calculateMACD closePrices 12 26;
     bollingerBands :=
       TechnicalIndicators.calculateBollingerBands Math_sqrt closePrices 20 2 |}.

End Snapshot.

End StockController.

(** ** The "test alert" endpoint *)

Module AlertTest.

(** What testAlert answers: status 400 with an error text, or the [test]
    object with [currentValue] and [shouldTrigger]. *)
Inductive Response : Type :=
| BadRequest (error : string)
| Tested (currentValue : option Q) (shouldTrigger : bool).

(** [!targetValue] for a Number of the request body. *)
Definition missing (targetValue : option Q) : bool := Js.falsy targetValue.

(** testAlert, after the quote and the history have been fetched: the body
    fields ([""] for a missing text, [None] for a missing Number), the price
    of the quote and the closes of the history are the arguments. *)
Definition testAlert (symbol alertType condition : string)
           (targetValue : option Q) (indicatorType : string)
           (quotePrice : Q) (closePrices : list Q) : Response :=
  if JsString.falsy symbol || JsString.falsy alertType
     || JsString.falsy condition || missing targetValue
  then BadRequest "Symbol, alert type, condition, and target value are required"
  else
    match targetValue with
    | None => BadRequest "Symbol, alert type, condition, and target value are required"
    | Some target =>
        if (alertType =? "price")%string then
          Tested (Some quotePrice)
                 (AlertController.evaluateCondition quotePrice condition target)
        else if (alertType =? "technical")%string then
          let finish (currentValue : option Q) :=
            match currentValue with
            | Some v =>
                Tested currentValue
                       (AlertController.evaluateCondition v condition target)
            | None => Tested None false
            end in
          if (indicatorType =? "rsi")%string then
            finish (TechnicalIndicators.calculateRSI closePrices 14)
          else if (indicatorType =? "sma")%string then
            finish (TechnicalIndicators.calculateSMA closePrices 20)
          else if (indicatorType =? "ema")%string then
            finish (TechnicalIndicators.calculateEMA closePrices 12)
          else BadRequest "Invalid indicator type"
        else Tested None false
    end.

End AlertTest.

(** ** The middleware of the authentication module *)

Module Auth.

(** What a middleware does with a request: hand it on ([next()]) or answer
    with a status. *)
Inductive Reply : Type :=
| Next
| Status (code : Z).

(** [planHierarchy[plan]]: [undefined] for any other key. *)
Definition planHierarchy (plan : string) : option Z :=
  if (plan =? "free")%string then Some 0%Z
  else if (plan =? "premium")%string then Some 1%Z
  else if (plan =? "pro")%string then Some 2%Z
  else None.

(** [a < b] where either side may be [undefined]: false unless both are
    numbers. *)
Definition lt (a b : option Z) : bool :=
  match a, b with
  | Some x, Some y => (x <? y)%Z
  | _, _ => false
  end.

(** [req.user.subscription?.plan || 'free'] *)
Definition planOf (plan : option string) : string :=
  match plan with
  | None => "free"
  | Some p => if JsString.falsy p then "free" else p
  end.

(** checkSubscription(requiredPlan)(req, res, next); [user] is [req.user],
    given by its plan. *)
Definition checkSubscription (requiredPlan : string)
           (user : option (option string)) : Reply :=
  match user with
  | None => Status 401
  | Some plan =>
      let userPlan := planOf plan in
      if lt (planHierarchy userPlan) (planHierarchy requiredPlan)
      then Status 403
      else Next
  end.

(** One entry of the [userRequests] map. *)
Record Limit : Type := mkLimit {
  count : Z;
  resetTime : Z
}.

(** The [userRequests] map, keyed by the text of the user id. *)
Definition Requests : Type := string -> option Limit.

(** [new Map()] *)
Definition no_requests : Requests := fun _ => None.

(** [userRequests.set(userId, limit)]; a write through the object that
    [get] returned is the same update. *)
Definition set (userRequests : Requests) (userId : string) (limit : Limit)
  : Requests :=
  fun key => if (key =? userId)%string then Some limit else userRequests key.

(** What the rate limiter does with a request. *)
Inductive Verdict : Type :=
| Allowed
| TooManyRequests (retryAfter : Z).

(** [Math.ceil(ms / 1000)] on an integer number of milliseconds. *)
Definition ceil_seconds (ms : Z) : Z := (- ((- ms) / 1000))%Z.

(** The middleware returned by rateLimitByUser(maxRequests, windowMs), with
    its map as explicit state; [user] is the id of [req.user]. *)
Definition rateLimitByUser (maxRequests windowMs : Z)
           (userRequests : Requests) (user : option string) (now : Z)
  : Verdict * Requests :=
  match user with
  | None => (Allowed, userRequests)
  | Some userId =>
      match userRequests userId with
      | None =>
          (Allowed,
           set userRequests userId
               {| count := 1; resetTime := (now + windowMs)%Z |})
      | Some userLimit =>
          if (resetTime userLimit <? now)%Z then
            (Allowed,
             set userRequests userId
                 {| count := 1; resetTime := (now + windowMs)%Z |})
          else if (maxRequests <=? count userLimit)%Z then
            (TooManyRequests (ceil_seconds (resetTime userLimit - now)),
             userRequests)
          else
            (Allowed,
             set userRequests userId
                 {| count := (count userLimit + 1)%Z;
                    resetTime := resetTime userLimit |})
      end
  end.

(** The middleware on a sequence of requests of one user, oldest first:
    the number of requests handed on, and the map at the end. *)
Fixpoint serve (maxRequests windowMs : Z) (userId : string)
         (times : list Z) (userRequests : Requests) : Z * Requests :=
  match times with
  | [] => (0%Z, userRequests)
  | now :: rest =>
      let '(verdict, userRequests') :=
        rateLimitByUser maxRequests windowMs userRequests (Some userId) now in
      let '(passed, final) :=
        serve maxRequests windowMs userId rest userRequests' in
      (match verdict with
       | Allowed => (1 + passed)%Z
       | TooManyRequests _ => passed
       end, final)
  end.

End Auth.

(** ** The stored quote and its signals *)

Module StockData.

(** The fields of a StockData document that its virtuals and methods read.
    A Number that may be unset is an [option]; a text with a default is a
    [string]. *)
Record t : Type := mk {
  priceCurrent : Q;
  volumeCurrent : Q;
  volumeAverage : option Q;
  rsiValue : option Q;
  rsiSignal : string;
  macdValue : option Q;
  macdTrend : string;
  sma20 : option Q
}.

(** The score and the total of the virtual [signalStrength] after its three
    blocks. *)
Definition signalScore (d : t) : Z * Z :=
  let '(score, total) := (0%Z, 0%Z) in
  let '(score, total) :=
    if negb (Js.falsy (rsiValue d)) then
      let total := (total + 1)%Z in
      let score :=
        if (rsiSignal d =? "oversold")%string then (score + 1)%Z else score in
      let score :=
        if (rsiSignal d =? "overbought")%string then (score - 1)%Z else score in
      (score, total)
    else (score, total) in
  let '(score, total) :=
    if negb (JsString.falsy (macdTrend d)) then
      let total := (total + 1)%Z in
      let score :=
        if (macdTrend d =? "bullish")%string then (score + 1)%Z else score in
      let score :=
        if (macdTrend d =? "bearish")%string then (score - 1)%Z else score in
      (score, total)
    else (score, total) in
  match sma20 d with
  | Some sma =>
      if Qeq_bool sma 0 then (score, total)
      else
        let total := (total + 1)%Z in
        if Js.gtb (priceCurrent d) sma then ((score + 1)%Z, total)
        else ((score - 1)%Z, total)
  | None => (score, total)
  end.

(** The virtual [signalStrength]. *)
Definition signalStrength (d : t) : Q :=
  let '(score, total) := signalScore d in
  if (0 <? total)%Z then inject_Z score / inject_Z total else 0.

(** One element of the array returned by shouldTriggerAlerts. *)
Record Trigger : Type := mkTrigger {
  type : string;
  value : option Q
}.

(** shouldTriggerAlerts() *)
Definition shouldTriggerAlerts (d : t) : list Trigger :=
  let triggers : list Trigger := [] in
  let triggers :=
    match rsiValue d with
    | Some rsi =>
        if Qeq_bool rsi 0 then triggers
        else
          let triggers :=
            if Js.gtb rsi 70
            then triggers ++ [mkTrigger "rsi_overbought" (Some rsi)]
            else triggers in
          if Js.ltb rsi 30
          then triggers ++ [mkTrigger "rsi_oversold" (Some rsi)]
          else triggers
    | None => triggers
    end in
  let triggers :=
    if negb (JsString.falsy (macdTrend d)) then
      let triggers :=
        if (macdTrend d =? "bullish")%string
        then triggers ++ [mkTrigger "macd_bullish" (macdValue d)]
        else triggers in
      if (macdTrend d =? "bearish")%string
      then triggers ++ [mkTrigger "macd_bearish" (macdValue d)]
      else triggers
    else triggers in
  match volumeAverage d with
  | Some average =>
      if Qeq_bool average 0 then triggers
      else if Js.gtb (volumeCurrent d) (average * 2)
           then triggers
                  ++ [mkTrigger "volume_spike" (Some (volumeCurrent d / average))]
           else triggers
  | None => triggers
  end.

End StockData.

(** ** Facts about the JavaScript primitives *)

(** Passes a guard [if (a.length < n) return null] whose test is false in
    the context. *)
Ltac length_guard :=
  match goal with
  | |- context [(?n <? ?m)%nat] =>
      let E := fresh "E" in
      destruct (n <? m)%nat eqn:E; [apply Nat.ltb_lt in E; lia|]
  end.

Section JsFacts.

Lemma ltb_lt (x y : Q) : Js.ltb x y = true <-> x < y.
Proof.
  unfold Js.ltb. rewrite negb_true_iff.
  split; intro H.
  - apply Qnot_le_lt. intro Hle.
    apply Qle_bool_iff in Hle. congruence.
  - destruct (Qle_bool y x) eqn:E; [|reflexivity].
    apply Qle_bool_iff in E. exfalso. apply (Qlt_not_le _ _ H E).
Qed.

Lemma ltb_ge (x y : Q) : Js.ltb x y = false <-> y <= x.
Proof.
  unfold Js.ltb. rewrite negb_false_iff. apply Qle_bool_iff.
Qed.

Lemma gtb_gt (x y : Q) : Js.gtb x y = true <-> y < x.
Proof. unfold Js.gtb. apply ltb_lt. Qed.

Lemma gtb_le (x y : Q) : Js.gtb x y = false <-> x <= y.
Proof. unfold Js.gtb. apply ltb_ge. Qed.

Lemma of_nat_pos (n : nat) : (1 <= n)%nat -> 0 < Js.of_nat n.
Proof.
  intro H. unfold Js.of_nat, Qlt. simpl. lia.
Qed.

Lemma fold_plus_total (xs : list Q) (acc : Q) :
  fold_left Qplus xs acc == acc + Spec.total xs.
Proof.
  revert acc. induction xs as [|x xs IH]; intro acc; simpl.
  - ring.
  - rewrite IH. ring.
Qed.

Lemma sum_total (xs : list Q) : Js.sum xs == Spec.total xs.
Proof. unfold Js.sum. rewrite fold_plus_total. ring. Qed.

Lemma total_Forall2 (xs ys : list Q) :
  Forall2 Qeq xs ys -> Spec.total xs == Spec.total ys.
Proof.
  induction 1 as [|x y xs ys Hxy _ IH]; simpl.
  - reflexivity.
  - rewrite Hxy, IH. reflexivity.
Qed.

Lemma total_nonneg (xs : list Q) :
  Forall (fun x => 0 <= x) xs -> 0 <= Spec.total xs.
Proof.
  induction 1 as [|x xs Hx _ IH]; simpl.
  - apply Qle_refl.
  - lra.
Qed.

Lemma slice_last_skipn {A : Type} (n : nat) (xs : list A) :
  (1 <= n)%nat -> Js.slice_last n xs = skipn (length xs - n) xs.
Proof. destruct n; [lia | reflexivity]. Qed.

Lemma trailing_skipn (n : nat) (xs : list Q) :
  Spec.trailing n xs = skipn (length xs - n) xs.
Proof.
  unfold Spec.trailing. rewrite firstn_rev, rev_involutive. reflexivity.
Qed.

Lemma Forall2_skipn {A B : Type} (R : A -> B -> Prop) (n : nat) :
  forall xs ys, Forall2 R xs ys -> Forall2 R (skipn n xs) (skipn n ys).
Proof.
  induction n as [|n IH]; intros xs ys H; simpl; [exact H|].
  destruct H; [constructor | apply IH; assumption].
Qed.

Lemma Forall_skipn {A : Type} (P : A -> Prop) (n : nat) :
  forall xs, Forall P xs -> Forall P (skipn n xs).
Proof.
  induction n as [|n IH]; intros xs H; simpl; [exact H|].
  destruct H; [constructor | apply IH; assumption].
Qed.

End JsFacts.

(** ** Warm-up windows *)

(** C4: a series shorter than the window gives [null] (never a number;
    the functions are total, so nothing is thrown): SMA and EMA when
    [length < period], RSI when [length < period + 1]. *)
Theorem short_series_gives_null (prices : list Q) (period : nat) :
  ((length prices < period)%nat ->
     StockService.calculateSMA prices period = None /\
     StockService.calculateEMA prices period = None) /\
  ((length prices < period + 1)%nat ->
     StockService.calculateRSI prices period = None).
Proof.
  unfold StockService.calculateSMA, StockService.calculateEMA,
    StockService.calculateRSI, TechnicalIndicators.calculateSMA,
    TechnicalIndicators.calculateEMA, TechnicalIndicators.calculateRSI.
  split.
  - intro H. apply Nat.ltb_lt in H. rewrite H. split; reflexivity.
  - intro H. apply Nat.ltb_lt in H. rewrite H. reflexivity.
Qed.

Lemma short_series_gives_null_witness :
  StockService.calculateSMA [1; 2] 3 = None /\
  StockService.calculateEMA [1; 2] 3 = None /\
  StockService.calculateRSI [1; 2; 3] 3 = None.
Proof.
  destruct (short_series_gives_null [1; 2] 3) as [H _].
  destruct (short_series_gives_null [1; 2; 3] 3) as [_ H'].
  assert (Hlt : (length [1; 2] < 3)%nat) by (simpl; lia).
  destruct (H Hlt) as [Hs He].
  split; [exact Hs | split; [exact He | apply H'; simpl; lia]].
Defined.

(** ** EMA *)

Section Ema.

Variable prices : list Q.
Variable period : nat.

Lemma ema_loop_proper (n i : nat) (e e' : Q) :
  e == e' ->
  TechnicalIndicators.ema_loop prices (2 / (Js.of_nat period + 1)) n i e ==
  TechnicalIndicators.ema_loop prices (2 / (Js.of_nat period + 1)) n i e'.
Proof.
  revert i e e'. induction n as [|n IH]; intros i e e' H; simpl.
  - exact H.
  - apply IH. rewrite H. reflexivity.
Qed.

Lemma spec_ema_step (i : nat) :
  (period <= S i)%nat ->
  Spec.ema prices period (S i) =
  (nth (S i) prices 0 - Spec.ema prices period i) * (2 / (Js.of_nat period + 1))
  + Spec.ema prices period i.
Proof.
  intro H. simpl Spec.ema.
  destruct (S i <? period)%nat eqn:E.
  - apply Nat.ltb_lt in E. lia.
  - reflexivity.
Qed.

Lemma spec_ema_seed (i : nat) :
  (i < period)%nat ->
  Spec.ema prices period i = Spec.mean (firstn period prices).
Proof.
  intro H. destruct i as [|i]; simpl; [reflexivity|].
  destruct (S i <? period)%nat eqn:E; [reflexivity|].
  apply Nat.ltb_ge in E. lia.
Qed.

(** The loop started at index [S i] with [ema[i]] ends with [ema[i + n]]. *)
Lemma ema_loop_spec (n i : nat) (e : Q) :
  (period <= S i)%nat ->
  e == Spec.ema prices period i ->
  TechnicalIndicators.ema_loop prices (2 / (Js.of_nat period + 1)) n (S i) e ==
  Spec.ema prices period (i + n).
Proof.
  revert i e. induction n as [|n IH]; intros i e Hi He; simpl.
  - rewrite Nat.add_0_r. exact He.
  - replace (i + S n)%nat with (S i + n)%nat by lia.
    apply IH; [lia|].
    rewrite spec_ema_step by exact Hi.
    unfold Js.get. rewrite He. reflexivity.
Qed.

End Ema.

(** C5: with at least [period] prices, calculateEMA returns the last value
    of the recurrence seeded with the mean of the first [period] elements,
    with multiplier [2 / (period + 1)] and
    [ema[i] = (price[i] - ema[i-1]) * multiplier + ema[i-1]] from index
    [period] to the end. *)
Theorem calculateEMA_is_recurrence (prices : list Q) (period : nat) :
  (1 <= period)%nat ->
  (period <= length prices)%nat ->
  exists e,
    TechnicalIndicators.calculateEMA prices period = Some e /\
    e == Spec.ema prices period (length prices - 1).
Proof.
  intros Hp Hlen. unfold TechnicalIndicators.calculateEMA.
  length_guard.
  eexists. split; [reflexivity|].
  destruct period as [|p]; [lia|].
  replace (length prices - 1)%nat with (p + (length prices - S p))%nat by lia.
  apply ema_loop_spec; [lia|].
  rewrite spec_ema_seed by lia.
  unfold Spec.mean, Js.slice_first.
  rewrite sum_total, length_firstn, Nat.min_l by lia.
  reflexivity.
Qed.

Lemma calculateEMA_is_recurrence_witness :
  exists e,
    TechnicalIndicators.calculateEMA sample_prices 3 = Some e /\
    e == Spec.ema sample_prices 3 5.
Proof.
  apply (calculateEMA_is_recurrence sample_prices 3); simpl; lia.
Defined.

(** ** RSI *)

Section Rsi.

Variable prices : list Q.

(** The loop pushes, for every index from [i] on, the gain and the loss of
    the change that ends at this index. *)
Lemma rsi_loop_map (n i : nat) (gains losses : list Q) :
  TechnicalIndicators.rsi_loop prices n i gains losses =
  (gains ++
     map (fun j =>
            let change := Js.get prices j - Js.get prices (j - 1) in
            if Js.gtb change 0 then change else 0) (seq i n),
   losses ++
     map (fun j =>
            let change := Js.get prices j - Js.get prices (j - 1) in
            if Js.ltb change 0 then Qabs change else 0) (seq i n)).
Proof.
  revert i gains losses.
  induction n as [|n IH]; intros i gains losses; simpl.
  - rewrite !app_nil_r. reflexivity.
  - rewrite IH, <- !app_assoc. reflexivity.
Qed.

End Rsi.

Lemma deltas_by_index (prices : list Q) :
  Spec.deltas prices =
  map (fun j => nth (S j) prices 0 - nth j prices 0)
      (seq 0 (length prices - 1)).
Proof.
  induction prices as [|p rest IH]; [reflexivity|].
  destruct rest as [|q rest']; [reflexivity|].
  change (Spec.deltas (p :: q :: rest'))
    with ((q - p) :: Spec.deltas (q :: rest')).
  rewrite IH.
  change (length (p :: q :: rest') - 1)%nat with (S (length rest')).
  change (length (q :: rest') - 1)%nat with (length rest' - 0)%nat.
  rewrite Nat.sub_0_r.
  rewrite <- cons_seq, <- seq_shift, map_cons, map_map.
  reflexivity.
Qed.

Lemma deltas_length (prices : list Q) :
  length (Spec.deltas prices) = (length prices - 1)%nat.
Proof. rewrite deltas_by_index, length_map, length_seq. reflexivity. Qed.

Lemma Forall2_map_seq (F G : nat -> Q) (s : list nat) :
  (forall j, F j == G j) -> Forall2 Qeq (map F s) (map G s).
Proof.
  intro H. induction s as [|j s IH]; simpl; constructor; auto.
Qed.

Lemma pushed_gain_is_max (change : Q) :
  (if Js.gtb change 0 then change else 0) == Spec.gain change.
Proof.
  unfold Spec.gain. destruct (Js.gtb change 0) eqn:E.
  - apply gtb_gt in E. rewrite Q.max_l; [reflexivity | lra].
  - apply gtb_le in E. rewrite Q.max_r; [reflexivity | lra].
Qed.

Lemma pushed_loss_is_max (change : Q) :
  (if Js.ltb change 0 then Qabs change else 0) == Spec.loss change.
Proof.
  unfold Spec.loss. destruct (Js.ltb change 0) eqn:E.
  - apply ltb_lt in E. rewrite Qabs_neg by lra.
    rewrite Q.max_l; [reflexivity | lra].
  - apply ltb_ge in E. rewrite Q.max_r; [reflexivity | lra].
Qed.

Lemma gain_nonneg (delta : Q) : 0 <= Spec.gain delta.
Proof. unfold Spec.gain. apply Q.le_max_r. Qed.

Lemma loss_nonneg (delta : Q) : 0 <= Spec.loss delta.
Proof. unfold Spec.loss. apply Q.le_max_r. Qed.

(** The arrays built by the loop of calculateRSI against the specification's
    gains and losses. *)
Lemma rsi_loop_spec (prices : list Q) :
  exists gains losses,
    TechnicalIndicators.rsi_loop prices (length prices - 1) 1 [] []
    = (gains, losses) /\
    length gains = (length prices - 1)%nat /\
    length losses = (length prices - 1)%nat /\
    Forall2 Qeq gains (map Spec.gain (Spec.deltas prices)) /\
    Forall2 Qeq losses (map Spec.loss (Spec.deltas prices)).
Proof.
  rewrite rsi_loop_map. do 2 eexists. split; [reflexivity|].
  simpl app. rewrite !length_map, !length_seq.
  split; [reflexivity|]. split; [reflexivity|].
  rewrite deltas_by_index, <- seq_shift, !map_map.
  split; apply Forall2_map_seq; intro j; cbv zeta; unfold Js.get;
    replace (S j - 1)%nat with j by lia.
  - apply pushed_gain_is_max.
  - apply pushed_loss_is_max.
Qed.

Lemma trailing_average_eq (period : nat) (xs ys : list Q) :
  (1 <= period)%nat ->
  length xs = length ys ->
  Forall2 Qeq xs ys ->
  Js.sum (Js.slice_last period xs) / Js.of_nat period ==
  Spec.total (Spec.trailing period ys) / Js.of_nat period.
Proof.
  intros Hp Hlen H.
  rewrite slice_last_skipn, trailing_skipn, sum_total by exact Hp.
  rewrite Hlen.
  rewrite (total_Forall2 _ _ (Forall2_skipn Qeq _ _ _ H)).
  reflexivity.
Qed.

Lemma Qeq_bool_proper (x y : Q) : x == y -> Qeq_bool x 0 = Qeq_bool y 0.
Proof.
  intro H. destruct (Qeq_bool y 0) eqn:E.
  - apply Qeq_bool_iff in E. apply Qeq_bool_iff. rewrite H. exact E.
  - destruct (Qeq_bool x 0) eqn:E'; [|reflexivity].
    apply Qeq_bool_iff in E'. rewrite H in E'.
    apply Qeq_bool_iff in E'. congruence.
Qed.

(** calculateRSI against the specification's formula. *)
Lemma calculateRSI_spec (prices : list Q) (period : nat) :
  (1 <= period)%nat ->
  (period + 1 <= length prices)%nat ->
  exists r,
    TechnicalIndicators.calculateRSI prices period = Some r /\
    r == Spec.rsi prices period /\
    (Spec.avgLoss prices period == 0 -> r = 100).
Proof.
  intros Hp Hlen. unfold TechnicalIndicators.calculateRSI.
  length_guard.
  destruct (rsi_loop_spec prices) as (gains & losses & -> & Lg & Ll & Hg & Hl).
  length_guard.
  assert (HG : Js.sum (Js.slice_last period gains) / Js.of_nat period
               == Spec.avgGain prices period).
  { apply trailing_average_eq; auto.
    rewrite length_map, deltas_length. exact Lg. }
  assert (HL : Js.sum (Js.slice_last period losses) / Js.of_nat period
               == Spec.avgLoss prices period).
  { apply trailing_average_eq; auto.
    rewrite length_map, deltas_length. exact Ll. }
  unfold Js.strict_eq, Spec.rsi.
  rewrite (Qeq_bool_proper _ _ HL).
  destruct (Qeq_bool (Spec.avgLoss prices period) 0) eqn:Z.
  - eexists. split; [reflexivity|]. split; [reflexivity | auto].
  - eexists. split; [reflexivity|]. split.
    + rewrite HG, HL. reflexivity.
    + intro H0. apply Qeq_bool_iff in H0. congruence.
Qed.

Lemma avgGain_nonneg (prices : list Q) (period : nat) :
  (1 <= period)%nat -> 0 <= Spec.avgGain prices period.
Proof.
  intro Hp. unfold Spec.avgGain.
  apply Qle_shift_div_l; [apply of_nat_pos; exact Hp|].
  rewrite Qmult_0_l. apply total_nonneg.
  rewrite trailing_skipn. apply Forall_skipn.
  apply Forall_forall. intros x Hx. apply in_map_iff in Hx.
  destruct Hx as (d & <- & _). apply gain_nonneg.
Qed.

Lemma avgLoss_nonneg (prices : list Q) (period : nat) :
  (1 <= period)%nat -> 0 <= Spec.avgLoss prices period.
Proof.
  intro Hp. unfold Spec.avgLoss.
  apply Qle_shift_div_l; [apply of_nat_pos; exact Hp|].
  rewrite Qmult_0_l. apply total_nonneg.
  rewrite trailing_skipn. apply Forall_skipn.
  apply Forall_forall. intros x Hx. apply in_map_iff in Hx.
  destruct Hx as (d & <- & _). apply loss_nonneg.
Qed.

(** A series without a falling step has no loss in any window. *)
Lemma avgLoss_zero_of_rising (prices : list Q) (period : nat) :
  Forall (fun delta => 0 <= delta) (Spec.deltas prices) ->
  Spec.avgLoss prices period == 0.
Proof.
  intro H. unfold Spec.avgLoss.
  assert (T : Spec.total
                (Spec.trailing period (map Spec.loss (Spec.deltas prices)))
              == 0).
  { rewrite trailing_skipn.
    generalize (length (map Spec.loss (Spec.deltas prices)) - period)%nat.
    intro k.
    assert (F : Forall (fun x => x == 0)
                       (skipn k (map Spec.loss (Spec.deltas prices)))).
    { apply Forall_skipn. apply Forall_forall. intros x Hx.
      apply in_map_iff in Hx. destruct Hx as (d & <- & Hd).
      rewrite Forall_forall in H. specialize (H d Hd).
      unfold Spec.loss. rewrite Q.max_r; [reflexivity | lra]. }
    induction F as [|x xs Hx _ IH]; simpl; [reflexivity|].
    rewrite Hx, IH. reflexivity. }
  rewrite T. unfold Qdiv. ring.
Qed.

Lemma spec_rsi_bounds (prices : list Q) (period : nat) :
  (1 <= period)%nat ->
  0 <= Spec.rsi prices period /\
  Spec.rsi prices period <= 100 /\
  (~ Spec.avgLoss prices period == 0 -> Spec.rsi prices period < 100).
Proof.
  intro Hp.
  pose proof (avgGain_nonneg prices period Hp) as Hg.
  pose proof (avgLoss_nonneg prices period Hp) as Hl.
  unfold Spec.rsi.
  destruct (Qeq_bool (Spec.avgLoss prices period) 0) eqn:E.
  - apply Qeq_bool_iff in E.
    split; [lra|]. split; [lra|]. intro N. contradiction.
  - apply Qeq_bool_neq in E.
    set (g := Spec.avgGain prices period) in *.
    set (l := Spec.avgLoss prices period) in *.
    assert (Lpos : 0 < l).
    { destruct (Qlt_le_dec 0 l) as [H|H]; [exact H|].
      exfalso. apply E. lra. }
    assert (RS : 0 <= g / l).
    { apply Qle_shift_div_l; [exact Lpos | lra]. }
    assert (Dpos : 0 < 1 + g / l) by lra.
    assert (U : 100 / (1 + g / l) <= 100).
    { apply Qle_shift_div_r; [exact Dpos | lra]. }
    assert (P : 0 < 100 / (1 + g / l)).
    { apply Qlt_shift_div_l; [exact Dpos | lra]. }
    split; [lra|]. split; [lra|]. intros _. lra.
Qed.

(** C6: with at least [period + 1] prices, calculateRSI averages the last
    [period] gains [max(delta, 0)] and the last [period] losses
    [max(-delta, 0)] of the whole series; a zero average loss (in
    particular a series without a falling step) gives exactly 100, and
    otherwise the result is [100 - 100 / (1 + avgGain / avgLoss)]. *)
Theorem calculateRSI_trailing_average (prices : list Q) (period : nat) :
  (1 <= period)%nat ->
  (period + 1 <= length prices)%nat ->
  exists r,
    TechnicalIndicators.calculateRSI prices period = Some r /\
    (Spec.avgLoss prices period == 0 -> r = 100) /\
    (Forall (fun delta => 0 <= delta) (Spec.deltas prices) -> r = 100) /\
    (~ Spec.avgLoss prices period == 0 ->
     r == 100 - 100 / (1 + Spec.avgGain prices period
                           / Spec.avgLoss prices period)).
Proof.
  intros Hp Hlen.
  destruct (calculateRSI_spec prices period Hp Hlen) as (r & Hr & Hspec & Hz).
  exists r. split; [exact Hr|]. split; [exact Hz|]. split.
  - intro Hrise. apply Hz. apply avgLoss_zero_of_rising. exact Hrise.
  - intro Hnz. rewrite Hspec. unfold Spec.rsi.
    destruct (Qeq_bool (Spec.avgLoss prices period) 0) eqn:E.
    + apply Qeq_bool_iff in E. contradiction.
    + reflexivity.
Qed.

Lemma calculateRSI_trailing_average_witness :
  exists r,
    TechnicalIndicators.calculateRSI sample_prices 3 = Some r /\
    (Spec.avgLoss sample_prices 3 == 0 -> r = 100) /\
    (Forall (fun delta => 0 <= delta) (Spec.deltas sample_prices) -> r = 100) /\
    (~ Spec.avgLoss sample_prices 3 == 0 ->
     r == 100 - 100 / (1 + Spec.avgGain sample_prices 3
                           / Spec.avgLoss sample_prices 3)).
Proof.
  apply (calculateRSI_trailing_average sample_prices 3); simpl; lia.
Defined.

(** C10: whenever calculateRSI returns a number, the number lies in
    [0, 100]; it is below 100 unless the average loss is zero. *)
Theorem calculateRSI_in_range (prices : list Q) (period : nat) (r : Q) :
  (1 <= period)%nat ->
  TechnicalIndicators.calculateRSI prices period = Some r ->
  0 <= r /\ r <= 100 /\
  (Spec.avgLoss prices period == 0 -> r = 100) /\
  (~ Spec.avgLoss prices period == 0 -> r < 100).
Proof.
  intros Hp Hr.
  assert (Hlen : (period + 1 <= length prices)%nat).
  { unfold TechnicalIndicators.calculateRSI in Hr.
    destruct (length prices <? period + 1)%nat eqn:E; [discriminate|].
    apply Nat.ltb_ge in E. exact E. }
  destruct (calculateRSI_spec prices period Hp Hlen) as (r' & Hr' & Hspec & Hz).
  rewrite Hr in Hr'. injection Hr' as <-.
  destruct (spec_rsi_bounds prices period Hp) as (B0 & B1 & B2).
  split; [rewrite Hspec; exact B0|].
  split; [rewrite Hspec; exact B1|].
  split; [exact Hz|].
  intro Hnz. rewrite Hspec. apply B2. exact Hnz.
Qed.

Lemma calculateRSI_in_range_witness :
  0 <= 900 # 12 /\ 900 # 12 <= 100 /\
  (Spec.avgLoss sample_prices 3 == 0 -> 900 # 12 = 100) /\
  (~ Spec.avgLoss sample_prices 3 == 0 -> 900 # 12 < 100).
Proof.
  apply (calculateRSI_in_range sample_prices 3 (900 # 12)).
  - lia.
  - vm_compute. reflexivity.
Defined.

(** ** MACD *)

(** When both averages are non-zero numbers, the MACD line is their
    difference and neither the signal line nor the histogram is computed. *)
Lemma calculateMACD_nonzero (prices : list Q) (fast slow : nat) (e12 e26 : Q) :
  TechnicalIndicators.calculateEMA prices fast = Some e12 ->
  TechnicalIndicators.calculateEMA prices slow = Some e26 ->
  ~ e12 == 0 -> ~ e26 == 0 ->
  TechnicalIndicators.calculateMACD prices fast slow =
    Some {| TechnicalIndicators.macd := e12 - e26;
            TechnicalIndicators.signal := None;
            TechnicalIndicators.histogram := None |} /\
  StockService.calculateMACD prices fast slow = Some (e12 - e26).
Proof.
  intros H12 H26 N12 N26.
  assert (Hlen : (length prices <? slow)%nat = false).
  { unfold TechnicalIndicators.calculateEMA in H26.
    destruct (length prices <? slow)%nat; [discriminate | reflexivity]. }
  assert (F12 : Qeq_bool e12 0 = false).
  { destruct (Qeq_bool e12 0) eqn:E; [|reflexivity].
    apply Qeq_bool_iff in E. contradiction. }
  assert (F26 : Qeq_bool e26 0 = false).
  { destruct (Qeq_bool e26 0) eqn:E; [|reflexivity].
    apply Qeq_bool_iff in E. contradiction. }
  unfold TechnicalIndicators.calculateMACD, StockService.calculateMACD,
    StockService.calculateEMA.
  rewrite Hlen, H12, H26. simpl. rewrite F12, F26. simpl.
  split; reflexivity.
Qed.

(** An average that is the number zero is taken for a missing one. *)
Lemma calculateMACD_zero_average (prices : list Q) (fast slow : nat) (e12 e26 : Q) :
  TechnicalIndicators.calculateEMA prices fast = Some e12 ->
  TechnicalIndicators.calculateEMA prices slow = Some e26 ->
  e12 == 0 \/ e26 == 0 ->
  TechnicalIndicators.calculateMACD prices fast slow = None /\
  StockService.calculateMACD prices fast slow = None.
Proof.
  intros H12 H26 Hz.
  unfold TechnicalIndicators.calculateMACD, StockService.calculateMACD,
    StockService.calculateEMA.
  rewrite H12, H26.
  assert (F : Js.falsy (Some e12) || Js.falsy (Some e26) = true).
  { simpl. apply orb_true_iff.
    destruct Hz as [Hz|Hz]; [left | right]; apply Qeq_bool_iff; exact Hz. }
  rewrite F.
  destruct (length prices <? slow)%nat; split; reflexivity.
Qed.

Lemma total_pos (xs : list Q) :
  xs <> [] -> Forall (fun x => 0 < x) xs -> 0 < Spec.total xs.
Proof.
  intros Hne H. destruct H as [|x xs Hx Hxs]; [congruence|].
  simpl.
  assert (T : 0 <= Spec.total xs).
  { apply total_nonneg. apply Forall_forall. intros y Hy.
    rewrite Forall_forall in Hxs. apply Qlt_le_weak. auto. }
  lra.
Qed.

Lemma multiplier_range (period : nat) :
  (1 <= period)%nat ->
  0 < 2 / (Js.of_nat period + 1) /\ 2 / (Js.of_nat period + 1) <= 1.
Proof.
  intro Hp.
  assert (P : 1 <= Js.of_nat period).
  { unfold Js.of_nat, Qle. simpl. lia. }
  split.
  - apply Qlt_shift_div_l; lra.
  - apply Qle_shift_div_r; lra.
Qed.

Lemma ema_loop_pos (prices : list Q) (multiplier : Q) (n i : nat) (e : Q) :
  0 < multiplier -> multiplier <= 1 ->
  Forall (fun p => 0 < p) prices ->
  (i + n <= length prices)%nat ->
  0 < e ->
  0 < TechnicalIndicators.ema_loop prices multiplier n i e.
Proof.
  intros M0 M1 Hpos. revert i e.
  induction n as [|n IH]; intros i e Hi He; simpl; [exact He|].
  apply IH; [lia|].
  assert (P : 0 < Js.get prices i).
  { unfold Js.get. rewrite Forall_forall in Hpos.
    apply Hpos. apply nth_In. lia. }
  assert (A : 0 < multiplier * Js.get prices i)
    by (apply Qmult_lt_0_compat; assumption).
  assert (B : 0 <= (1 - multiplier) * e)
    by (apply Qmult_le_0_compat; lra).
  assert (E : (Js.get prices i - e) * multiplier + e ==
              multiplier * Js.get prices i + (1 - multiplier) * e) by ring.
  rewrite E. lra.
Qed.

(** The moving average of positive prices is positive. *)
Lemma calculateEMA_pos (prices : list Q) (period : nat) (e : Q) :
  (1 <= period)%nat ->
  Forall (fun p => 0 < p) prices ->
  TechnicalIndicators.calculateEMA prices period = Some e ->
  0 < e.
Proof.
  intros Hp Hpos He. unfold TechnicalIndicators.calculateEMA in He.
  destruct (length prices <? period)%nat eqn:E; [discriminate|].
  apply Nat.ltb_ge in E. injection He as <-.
  destruct (multiplier_range period Hp) as [M0 M1].
  apply ema_loop_pos; try assumption; [lia|].
  apply Qlt_shift_div_l; [apply of_nat_pos; exact Hp|].
  rewrite Qmult_0_l, sum_total. unfold Js.slice_first.
  apply total_pos.
  - destruct prices as [|p rest]; [simpl in E; lia|].
    destruct period; [lia | discriminate].
  - apply Forall_forall. intros x Hx. rewrite Forall_forall in Hpos.
    apply Hpos. rewrite <- (firstn_skipn period prices).
    apply in_or_app. left. exact Hx.
Qed.

(** On positive prices both versions of calculateMACD return the
    difference of the two averages, and the version that returns an object
    leaves the signal line and the histogram [null]. *)
Lemma calculateMACD_positive_prices (prices : list Q) :
  Forall (fun p => 0 < p) prices ->
  (26 <= length prices)%nat ->
  exists e12 e26,
    TechnicalIndicators.calculateEMA prices 12 = Some e12 /\
    TechnicalIndicators.calculateEMA prices 26 = Some e26 /\
    TechnicalIndicators.calculateMACD prices 12 26 =
      Some {| TechnicalIndicators.macd := e12 - e26;
              TechnicalIndicators.signal := None;
              TechnicalIndicators.histogram := None |} /\
    StockService.calculateMACD prices 12 26 = Some (e12 - e26).
Proof.
  intros Hpos Hlen.
  destruct (TechnicalIndicators.calculateEMA prices 12) as [e12|] eqn:H12.
  2:{ unfold TechnicalIndicators.calculateEMA in H12.
      destruct (length prices <? 12)%nat eqn:E; [|discriminate].
      apply Nat.ltb_lt in E. lia. }
  destruct (TechnicalIndicators.calculateEMA prices 26) as [e26|] eqn:H26.
  2:{ unfold TechnicalIndicators.calculateEMA in H26.
      destruct (length prices <? 26)%nat eqn:E; [|discriminate].
      apply Nat.ltb_lt in E. lia. }
  exists e12, e26. split; [reflexivity|]. split; [reflexivity|].
  assert (P12 : 0 < e12) by (apply (calculateEMA_pos prices 12); auto; lia).
  assert (P26 : 0 < e26) by (apply (calculateEMA_pos prices 26); auto; lia).
  apply calculateMACD_nonzero; auto; intro Z; lra.
Qed.

Lemma total_zero (xs : list Q) :
  Forall (fun x => x == 0) xs -> Spec.total xs == 0.
Proof.
  induction 1 as [|x xs Hx _ IH]; simpl; [reflexivity|].
  rewrite Hx, IH. reflexivity.
Qed.

Lemma ema_loop_zero (prices : list Q) (multiplier : Q) (n i : nat) (e : Q) :
  (forall j, Js.get prices j == 0) ->
  e == 0 ->
  TechnicalIndicators.ema_loop prices multiplier n i e == 0.
Proof.
  intro Hz. revert i e. induction n as [|n IH]; intros i e He; simpl.
  - exact He.
  - apply IH. rewrite (Hz i), He. ring.
Qed.

(** Every moving average of a series at price zero is the number zero. *)
Lemma calculateEMA_zero_prices (n period : nat) :
  (period <= n)%nat ->
  exists e,
    TechnicalIndicators.calculateEMA (repeat 0 n) period = Some e /\ e == 0.
Proof.
  intro H. unfold TechnicalIndicators.calculateEMA.
  rewrite repeat_length.
  length_guard.
  eexists. split; [reflexivity|].
  apply ema_loop_zero.
  - intro j. unfold Js.get. rewrite nth_repeat. reflexivity.
  - unfold Js.slice_first. rewrite sum_total, total_zero.
    + unfold Qdiv. ring.
    + apply Forall_forall. intros x Hx.
      apply (In_nth _ _ 0) in Hx. destruct Hx as (k & _ & <-).
      rewrite nth_firstn. destruct (k <? period)%nat; [|reflexivity].
      rewrite nth_repeat. reflexivity.
Qed.

(** C7, at twenty-six bars of price zero: both averages are the number
    zero, so the MACD line would be [0 - 0]; both versions of calculateMACD
    return [null] instead. *)
Theorem calculateMACD_null_on_zero_prices :
  (26 <= length zero_prices)%nat /\
  (exists e12 e26,
     TechnicalIndicators.calculateEMA zero_prices 12 = Some e12 /\
     TechnicalIndicators.calculateEMA zero_prices 26 = Some e26 /\
     e12 - e26 == 0) /\
  TechnicalIndicators.calculateMACD zero_prices 12 26 = None /\
  StockService.calculateMACD zero_prices 12 26 = None.
Proof.
  unfold zero_prices.
  destruct (calculateEMA_zero_prices 26 12) as (e12 & H12 & Z12); [lia|].
  destruct (calculateEMA_zero_prices 26 26) as (e26 & H26 & Z26); [lia|].
  split; [rewrite repeat_length; lia|].
  split.
  - exists e12, e26. split; [exact H12|]. split; [exact H26|].
    rewrite Z12, Z26. ring.
  - apply (calculateMACD_zero_average _ 12%nat 26%nat e12 e26 H12 H26).
    left. exact Z12.
Qed.

(** ** Bollinger bands *)

Section BollingerFacts.

Variable Math_sqrt : Q -> Q.

(** The square root of zero is zero. *)
Hypothesis sqrt_zero : forall x, x == 0 -> Math_sqrt x == 0.

Lemma total_repeat (c : Q) (n : nat) :
  Spec.total (repeat c n) == Js.of_nat n * c.
Proof.
  induction n as [|n IH].
  - simpl. unfold Js.of_nat. simpl. ring.
  - cbn [repeat Spec.total fold_right]. rewrite IH.
    unfold Js.of_nat. rewrite Nat2Z.inj_succ, <- Z.add_1_r, inject_Z_plus.
    ring.
Qed.

Lemma skipn_repeat {A : Type} (c : A) (k n : nat) :
  skipn k (repeat c n) = repeat c (n - k).
Proof.
  revert n. induction k as [|k IH]; intro n; simpl.
  - rewrite Nat.sub_0_r. reflexivity.
  - destruct n as [|n]; simpl; [reflexivity | apply IH].
Qed.

Lemma squares_of_constant (c m acc : Q) (n : nat) :
  m == c ->
  fold_left (fun sum price => sum + (price - m) ^ 2) (repeat c n) acc == acc.
Proof.
  intro H. revert acc. induction n as [|n IH]; intro acc; simpl.
  - reflexivity.
  - rewrite IH, H. ring.
Qed.

(** On a constant series of a non-zero price the three bands are that
    price, in the exact arithmetic of the model. *)
Lemma bollinger_constant_nonzero (c multiplier : Q) (n period : nat) :
  (1 <= period)%nat ->
  (period <= n)%nat ->
  ~ c == 0 ->
  exists b,
    TechnicalIndicators.calculateBollingerBands Math_sqrt (repeat c n)
                                                period multiplier = Some b /\
    TechnicalIndicators.upper b == c /\
    TechnicalIndicators.middle b == c /\
    TechnicalIndicators.lower b == c.
Proof.
  intros Hp Hn Hc.
  unfold TechnicalIndicators.calculateBollingerBands,
    TechnicalIndicators.calculateSMA.
  rewrite repeat_length.
  length_guard.
  rewrite slice_last_skipn, repeat_length, skipn_repeat by exact Hp.
  replace (n - (n - period))%nat with period by lia.
  pose proof (of_nat_pos period Hp) as Ppos.
  assert (M : Js.sum (repeat c period) / Js.of_nat period == c).
  { rewrite sum_total, total_repeat. field. lra. }
  unfold Js.falsy.
  destruct (Qeq_bool (Js.sum (repeat c period) / Js.of_nat period) 0) eqn:Z.
  { apply Qeq_bool_iff in Z. rewrite M in Z. contradiction. }
  eexists. split; [reflexivity|]. simpl.
  assert (S0 : Math_sqrt
                 (fold_left
                    (fun sum price =>
                       sum + (price - Js.sum (repeat c period)
                                      / Js.of_nat period) ^ 2)
                    (repeat c period) 0 / Js.of_nat period) == 0).
  { apply sqrt_zero. rewrite squares_of_constant by exact M.
    unfold Qdiv. ring. }
  rewrite S0, M. split; [ring|]. split; [reflexivity | ring].
Qed.

End BollingerFacts.

(** C8, at twenty bars of price zero: the mean is the number zero, which
    the guard on the mean takes for a missing value; the function returns
    [null] and no bands, whatever [Math.sqrt] is. *)
Theorem calculateBollingerBands_null_on_zero_prices (Math_sqrt : Q -> Q) :
  TechnicalIndicators.calculateSMA (repeat 0 20) 20 = Some (0 / 20) /\
  TechnicalIndicators.calculateBollingerBands Math_sqrt (repeat 0 20) 20 2
  = None.
Proof.
  split; vm_compute; reflexivity.
Qed.

(** ** Crossover conditions *)

Section Crossover.

Variable a : ExpiringAlert.t.
Variable now : Z.

(** shouldTrigger never fires a crossover on a single sample. *)
Lemma shouldTrigger_single_sample (currentValue : Q) :
  ExpiringAlert.condition a = "crosses_above"%string \/
  ExpiringAlert.condition a = "crosses_below"%string ->
  ExpiringAlert.shouldTrigger a now currentValue None = false.
Proof.
  intro H. unfold ExpiringAlert.shouldTrigger.
  destruct (negb (ExpiringAlert.isActive a) || ExpiringAlert.triggered a);
    [reflexivity|].
  destruct (ExpiringAlert.expired a now); [reflexivity|].
  destruct H as [-> | ->]; reflexivity.
Qed.

Hypothesis active : ExpiringAlert.isActive a = true.
Hypothesis not_triggered : ExpiringAlert.triggered a = false.
Hypothesis not_expired : ExpiringAlert.expired a now = false.

(** On a live alert, crosses_above fires exactly when a previous sample is
    present, was at or below the target, and the current one is above. *)
Lemma shouldTrigger_crosses_above (currentValue : Q) (previousValue : option Q) :
  ExpiringAlert.condition a = "crosses_above"%string ->
  ExpiringAlert.shouldTrigger a now currentValue previousValue = true <->
  exists previous,
    previousValue = Some previous /\
    previous <= ExpiringAlert.targetValue a /\
    ExpiringAlert.targetValue a < currentValue.
Proof.
  intro Hc. unfold ExpiringAlert.shouldTrigger.
  rewrite active, not_triggered, not_expired, Hc. simpl.
  destruct previousValue as [p|].
  - rewrite andb_true_iff. unfold Js.leb.
    rewrite Qle_bool_iff, gtb_gt. split.
    + intros [H1 H2]. exists p. auto.
    + intros (q & Hq & H1 & H2). injection Hq as <-. auto.
  - split; [discriminate|]. intros (q & Hq & _). discriminate.
Qed.

(** Dually for crosses_below. *)
Lemma shouldTrigger_crosses_below (currentValue : Q) (previousValue : option Q) :
  ExpiringAlert.condition a = "crosses_below"%string ->
  ExpiringAlert.shouldTrigger a now currentValue previousValue = true <->
  exists previous,
    previousValue = Some previous /\
    ExpiringAlert.targetValue a <= previous /\
    currentValue < ExpiringAlert.targetValue a.
Proof.
  intro Hc. unfold ExpiringAlert.shouldTrigger.
  rewrite active, not_triggered, not_expired, Hc. simpl.
  destruct previousValue as [p|].
  - rewrite andb_true_iff. unfold Js.geb.
    rewrite Qle_bool_iff, ltb_lt. split.
    + intros [H1 H2]. exists p. auto.
    + intros (q & Hq & H1 & H2). injection Hq as <-. auto.
  - split; [discriminate|]. intros (q & Hq & _). discriminate.
Qed.

End Crossover.

(** C1, in the helper of the "test alert" endpoint: evaluateCondition has
    one sample only, and on it a crossover condition is the plain
    comparison; with the current value 20 and the target 15 crosses_above
    fires, where shouldTrigger on the same single sample does not. *)
Theorem evaluateCondition_crossover_on_one_sample :
  AlertController.evaluateCondition 20 "crosses_above" 15 = true /\
  AlertController.evaluateCondition 10 "crosses_below" 15 = true /\
  ExpiringAlert.shouldTrigger crossing_alert 0 20 None = false /\
  (forall currentValue targetValue,
     AlertController.evaluateCondition currentValue "crosses_above" targetValue
     = AlertController.evaluateCondition currentValue "above" targetValue /\
     AlertController.evaluateCondition currentValue "crosses_below" targetValue
     = AlertController.evaluateCondition currentValue "below" targetValue).
Proof.
  split; [reflexivity|]. split; [reflexivity|]. split; [reflexivity|].
  intros c t. split; reflexivity.
Qed.

(** ** The status virtual *)

(** C2 as stated fails: a paused alert whose expiry date has passed
    reports "inactive", not "expired". *)
Lemma status_paused_before_expired :
  ExpiringAlert.isActive paused_expired_alert = false /\
  ExpiringAlert.expiresAt paused_expired_alert = Some 1000%Z /\
  (1000 < 2000)%Z /\
  ExpiringAlert.status paused_expired_alert 2000 = "inactive"%string /\
  ExpiringAlert.status paused_expired_alert 2000 <> "expired"%string.
Proof.
  repeat (split; [reflexivity|]). intro H. discriminate H.
Qed.

Lemma expired_iff (a : ExpiringAlert.t) (now : Z) :
  ExpiringAlert.expired a now = true <->
  exists e, ExpiringAlert.expiresAt a = Some e /\ (e < now)%Z.
Proof.
  unfold ExpiringAlert.expired.
  destruct (ExpiringAlert.expiresAt a) as [e|].
  - rewrite Z.ltb_lt. split.
    + intro H. exists e. auto.
    + intros (e' & He & H). injection He as <-. exact H.
  - split; [discriminate|]. intros (e & He & _). discriminate.
Qed.

(** C2, amended: the status is decided in the order paused, fired, expired.
    It is "inactive" exactly when the alert is paused; "triggered" exactly
    when it is not paused and has fired (the [triggered] flag, or a
    [lastTriggered] date, whether or not the cooldown has elapsed);
    "expired" exactly when it is neither paused nor fired and its expiry
    date is before now; "active" otherwise.  The model with a cooldown has
    no expiry date and never reports "expired"; neither model reports
    "cooling_down". *)
Theorem status_order (a : ExpiringAlert.t) (c : CooldownAlert.t) (now : Z) :
  (ExpiringAlert.status a now = "inactive"%string <->
   ExpiringAlert.isActive a = false) /\
  (ExpiringAlert.status a now = "triggered"%string <->
   ExpiringAlert.isActive a = true /\ ExpiringAlert.triggered a = true) /\
  (ExpiringAlert.status a now = "expired"%string <->
   ExpiringAlert.isActive a = true /\ ExpiringAlert.triggered a = false /\
   exists e, ExpiringAlert.expiresAt a = Some e /\ (e < now)%Z) /\
  (ExpiringAlert.status a now = "active"%string <->
   ExpiringAlert.isActive a = true /\ ExpiringAlert.triggered a = false /\
   ~ exists e, ExpiringAlert.expiresAt a = Some e /\ (e < now)%Z) /\
  (CooldownAlert.status c = "inactive"%string <->
   CooldownAlert.isActive c = false) /\
  (CooldownAlert.status c = "triggered"%string <->
   CooldownAlert.isActive c = true /\ CooldownAlert.lastTriggered c <> None) /\
  (CooldownAlert.status c = "active"%string <->
   CooldownAlert.isActive c = true /\ CooldownAlert.lastTriggered c = None) /\
  CooldownAlert.status c <> "expired"%string /\
  CooldownAlert.status c <> "cooling_down"%string /\
  ExpiringAlert.status a now <> "cooling_down"%string.
Proof.
  rewrite <- expired_iff.
  unfold ExpiringAlert.status, CooldownAlert.status.
  destruct (ExpiringAlert.isActive a), (ExpiringAlert.triggered a),
    (ExpiringAlert.expired a now), (CooldownAlert.isActive c),
    (CooldownAlert.lastTriggered c); simpl;
    repeat split; intros; try discriminate; try congruence;
    repeat match goal with
           | H : _ /\ _ |- _ => destruct H
           end; try discriminate; try congruence.
Qed.

(** ** Cooldown *)

Section Cooldown.

Variable show_number : Q -> string.

Lemma trigger_fields (a : CooldownAlert.t) (now : Z) :
  CooldownAlert.lastTriggered (CooldownAlert.trigger show_number a now)
  = Some now /\
  CooldownAlert.triggerCount (CooldownAlert.trigger show_number a now)
  = (CooldownAlert.triggerCount a + 1)%Z /\
  CooldownAlert.isActive (CooldownAlert.trigger show_number a now)
  = CooldownAlert.isActive a /\
  CooldownAlert.cooldownPeriod (CooldownAlert.trigger show_number a now)
  = CooldownAlert.cooldownPeriod a.
Proof. repeat split. Qed.

(** After a trigger at [T], an active alert can trigger again exactly from
    the end of its cooldown on. *)
Lemma canTrigger_after_trigger (a : CooldownAlert.t) (T now : Z) :
  CooldownAlert.isActive a = true ->
  CooldownAlert.canTrigger (CooldownAlert.trigger show_number a T) now = true
  <-> (CooldownAlert.cooldownPeriod a * 60 * 1000 <= now - T)%Z.
Proof.
  intro H. unfold CooldownAlert.canTrigger, CooldownAlert.isInCooldown.
  simpl. rewrite H. simpl. rewrite negb_true_iff, Z.ltb_ge. reflexivity.
Qed.

End Cooldown.

(** C3 as stated fails.  On the alert with the default cooldown, fired at
    0: trigger() does not consult the cooldown, so a call at 30 minutes
    fires again and raises the count to 2; and the status reports
    "triggered", not a cooling-down state, and is still "triggered", not
    "active", once the cooldown has elapsed (the status does not read the
    clock). *)
Lemma cooldown_is_not_enforced :
  let a1 := CooldownAlert.trigger show_integer_part hourly_alert 0 in
  CooldownAlert.isActive hourly_alert = true /\
  CooldownAlert.cooldownPeriod hourly_alert = 60%Z /\
  CooldownAlert.triggerCount a1 = 1%Z /\
  CooldownAlert.isInCooldown a1 (minutes 30) = true /\
  CooldownAlert.triggerCount
    (CooldownAlert.trigger show_integer_part a1 (minutes 30)) = 2%Z /\
  CooldownAlert.isInCooldown a1 (minutes 61) = false /\
  CooldownAlert.status a1 = "triggered"%string /\
  CooldownAlert.status a1 <> "cooling_down"%string /\
  CooldownAlert.status a1 <> "active"%string.
Proof.
  repeat (split; [reflexivity|]). split; intro H; discriminate H.
Qed.

(** C3, amended: after trigger() at [T] on an active alert with a cooldown
    of 60 minutes, canTrigger() is false at [T + 30 min] (the alert is in
    cooldown) and true at [T + 61 min], so a caller that calls trigger()
    only when canTrigger() holds leaves the count unchanged at
    [T + 30 min] and raises it at [T + 61 min] (from 1 to 2 for an alert
    that had not fired).  trigger() itself is not guarded: whenever it is
    called it raises the count.  The alert stays active ([isActive] is not
    written), and its status is "triggered" from the first trigger on. *)
Theorem cooldown_gate_after_trigger (show_number : Q -> string)
        (a : CooldownAlert.t) (T : Z) :
  CooldownAlert.isActive a = true ->
  CooldownAlert.cooldownPeriod a = 60%Z ->
  let a1 := CooldownAlert.trigger show_number a T in
  let gated (now : Z) :=
    if CooldownAlert.canTrigger a1 now
    then CooldownAlert.trigger show_number a1 now
    else a1 in
  CooldownAlert.triggerCount a1 = (CooldownAlert.triggerCount a + 1)%Z /\
  CooldownAlert.isInCooldown a1 (T + minutes 30) = true /\
  CooldownAlert.canTrigger a1 (T + minutes 30) = false /\
  CooldownAlert.triggerCount (gated (T + minutes 30)%Z) =
  CooldownAlert.triggerCount a1 /\
  CooldownAlert.isInCooldown a1 (T + minutes 61) = false /\
  CooldownAlert.canTrigger a1 (T + minutes 61) = true /\
  CooldownAlert.triggerCount (gated (T + minutes 61)%Z) =
  (CooldownAlert.triggerCount a1 + 1)%Z /\
  (CooldownAlert.triggerCount a = 0%Z ->
   CooldownAlert.triggerCount a1 = 1%Z /\
   CooldownAlert.triggerCount (gated (T + minutes 61)%Z) = 2%Z) /\
  (forall now,
     CooldownAlert.triggerCount (CooldownAlert.trigger show_number a1 now) =
     (CooldownAlert.triggerCount a1 + 1)%Z) /\
  CooldownAlert.isActive a1 = true /\
  (forall now,
     CooldownAlert.isActive (CooldownAlert.trigger show_number a1 now)
     = true) /\
  CooldownAlert.status a1 = "triggered"%string /\
  (forall now,
     CooldownAlert.status (CooldownAlert.trigger show_number a1 now)
     = "triggered"%string).
Proof.
  intros Hact Hcool a1 gated. subst gated a1.
  unfold CooldownAlert.canTrigger, CooldownAlert.isInCooldown,
    CooldownAlert.status, minutes.
  simpl. rewrite Hact, Hcool. simpl.
  assert (E30 : (T + 1800000 - T <? 3600000)%Z = true)
    by (apply Z.ltb_lt; lia).
  assert (E61 : (T + 3660000 - T <? 3600000)%Z = false)
    by (apply Z.ltb_ge; lia).
  rewrite E30, E61. simpl.
  repeat (split; [reflexivity|]).
  split.
  { intro H0. rewrite H0. split; reflexivity. }
  repeat (split; [reflexivity || (intro; reflexivity)|]).
  intro now. reflexivity.
Qed.

Lemma cooldown_gate_after_trigger_witness :
  let a1 := CooldownAlert.trigger show_integer_part hourly_alert 0 in
  CooldownAlert.canTrigger a1 (0 + minutes 30) = false /\
  CooldownAlert.canTrigger a1 (0 + minutes 61) = true /\
  CooldownAlert.triggerCount
    (if CooldownAlert.canTrigger a1 (0 + minutes 61)
     then CooldownAlert.trigger show_integer_part a1 (0 + minutes 61)
     else a1) = 2%Z.
Proof.
  intro a1.
  destruct (cooldown_gate_after_trigger show_integer_part hourly_alert 0
              eq_refl eq_refl)
    as (_ & _ & H30 & _ & _ & H61 & _ & H2 & _).
  split; [exact H30|]. split; [exact H61|].
  destruct (H2 eq_refl) as [_ H]. exact H.
Defined.

(** In the model with the [triggered] flag, what [save()] leaves in memory
    after trigger() and reset() is what their assignments made. *)
Lemma trigger_is_its_assignments (show_number : Q -> string)
      (a : ExpiringAlert.t) (now : Z) :
  ExpiringAlert.trigger show_number a now = ExpiringAlert.trigger_assign a now.
Proof.
  unfold ExpiringAlert.trigger, ExpiringAlert.preSave,
    ExpiringAlert.preSaveHook.
  cbn [ExpiringAlert.description ExpiringAlert.trigger_assign].
  destruct (JsString.falsy (ExpiringAlert.description a)); reflexivity.
Qed.

Lemma reset_is_its_assignments (show_number : Q -> string)
      (a : ExpiringAlert.t) (now : Z) :
  ExpiringAlert.reset show_number a now =
  ExpiringAlert.mk
    (ExpiringAlert.userId a) (ExpiringAlert.symbol a)
    (ExpiringAlert.alertType a) (ExpiringAlert.condition a)
    (ExpiringAlert.targetValue a) (ExpiringAlert.indicatorType a)
    (ExpiringAlert.indicatorPeriod a) (ExpiringAlert.description a)
    (ExpiringAlert.message a) (ExpiringAlert.isActive a)
    (ExpiringAlert.emailNotification a) (ExpiringAlert.smsNotification a)
    (ExpiringAlert.pushNotification a) false None
    (ExpiringAlert.triggeredValue a) (ExpiringAlert.triggerCount a)
    (Some now) (ExpiringAlert.expiresAt a) (ExpiringAlert.frequency a).
Proof.
  unfold ExpiringAlert.reset, ExpiringAlert.preSave,
    ExpiringAlert.preSaveHook.
  cbn [ExpiringAlert.description].
  destruct (JsString.falsy (ExpiringAlert.description a)); reflexivity.
Qed.

(** The model with the [triggered] flag has no cooldown: once it has fired
    it does not fire again, at any later time, until reset() clears the
    flag. *)
Lemma shouldTrigger_after_trigger (show_number : Q -> string)
      (a : ExpiringAlert.t) (T now : Z) (currentValue : Q)
      (previousValue : option Q) :
  ExpiringAlert.shouldTrigger (ExpiringAlert.trigger show_number a T) now
                              currentValue previousValue = false.
Proof.
  rewrite trigger_is_its_assignments.
  unfold ExpiringAlert.shouldTrigger. simpl.
  rewrite orb_true_r. reflexivity.
Qed.

(** ** What trigger() leaves alone *)


(** On an alert that has a description, trigger() of the model with a
    cooldown writes [lastTriggered] and [triggerCount] and nothing else. *)
Lemma trigger_writes_two_fields (show_number : Q -> string)
      (c : CooldownAlert.t) (now : Z) :
  CooldownAlert.description c <> ""%string ->
  CooldownAlert.trigger show_number c now =
  CooldownAlert.mk (CooldownAlert.user c) (CooldownAlert.symbol c)
                   (CooldownAlert.alertType c) (CooldownAlert.condition c)
                   (CooldownAlert.isActive c)
                   (CooldownAlert.triggerCount c + 1)%Z (Some now)
                   (CooldownAlert.cooldownPeriod c)
                   (CooldownAlert.notifications c)
                   (CooldownAlert.description c) (CooldownAlert.tags c).
Proof.
  intro H. unfold CooldownAlert.trigger, CooldownAlert.preSave. simpl.
  unfold JsString.falsy.
  destruct (String.eqb_spec (CooldownAlert.description c) "");
    [contradiction | reflexivity].
Qed.

(** ** Worked examples *)

(** The mean of the last five of [1..5] is 3. *)
Example sma_of_one_to_five :
  exists v, TechnicalIndicators.calculateSMA [1; 2; 3; 4; 5] 5 = Some v /\
            v == 3.
Proof. eexists. split; reflexivity. Qed.

(** A crossing of 15 from 10 to 20 fires; with no new bar (20, 20) it does
    not. *)
Example crossing_fires_once :
  ExpiringAlert.shouldTrigger crossing_alert 0 20 (Some 10) = true /\
  ExpiringAlert.shouldTrigger crossing_alert 0 20 (Some 20) = false.
Proof. split; reflexivity. Qed.

(** A rising series has RSI 100. *)
Example rsi_of_rising_series :
  TechnicalIndicators.calculateRSI [1; 2; 3; 4] 3 = Some 100.
Proof. reflexivity. Qed.

(** The bands of a constant series at price 5 all equal 5. *)
Example bands_of_constant_five :
  exists b,
    TechnicalIndicators.calculateBollingerBands isqrt (repeat 5 3) 3 2
    = Some b /\
    TechnicalIndicators.upper b == 5 /\
    TechnicalIndicators.middle b == 5 /\
    TechnicalIndicators.lower b == 5.
Proof. eexists. split; [reflexivity|]. repeat split. Qed.

(** * Further properties of the code *)

(** ** Moving averages *)

Lemma slice_last_length {A : Type} (n : nat) (xs : list A) :
  (1 <= n)%nat -> (n <= length xs)%nat -> length (Js.slice_last n xs) = n.
Proof.
  intros H1 H2. rewrite slice_last_skipn by exact H1.
  rewrite length_skipn. lia.
Qed.

(** The simple moving average reads the last [period] prices only: older
    bars in front of the window do not change it. *)
Theorem calculateSMA_window_only (older recent : list Q) (period : nat) :
  (1 <= period)%nat ->
  length recent = period ->
  TechnicalIndicators.calculateSMA (older ++ recent) period =
  TechnicalIndicators.calculateSMA recent period.
Proof.
  intros Hp Hlen. unfold TechnicalIndicators.calculateSMA.
  rewrite length_app.
  replace (length older + length recent <? period)%nat with false
    by (symmetry; apply Nat.ltb_ge; lia).
  replace (length recent <? period)%nat with false
    by (symmetry; apply Nat.ltb_ge; lia).
  rewrite !slice_last_skipn, length_app by exact Hp.
  rewrite skipn_app.
  replace (length older + length recent - period)%nat
    with (length older) by lia.
  rewrite skipn_all, Nat.sub_diag. simpl.
  replace (length recent - period)%nat with 0%nat by lia.
  reflexivity.
Qed.

Lemma calculateSMA_window_only_witness :
  TechnicalIndicators.calculateSMA ([10; 11; 12] ++ [11; 13; 14]) 3 =
  TechnicalIndicators.calculateSMA [11; 13; 14] 3.
Proof.
  apply (calculateSMA_window_only [10; 11; 12] [11; 13; 14] 3).
  - lia.
  - reflexivity.
Defined.

(** With a period equal to the length of the series, the exponential
    moving average is the simple one: the smoothing loop does not run. *)
Theorem calculateEMA_full_window_is_SMA (prices : list Q) :
  prices <> [] ->
  TechnicalIndicators.calculateEMA prices (length prices) =
  TechnicalIndicators.calculateSMA prices (length prices).
Proof.
  intro Hne.
  unfold TechnicalIndicators.calculateEMA, TechnicalIndicators.calculateSMA.
  rewrite Nat.ltb_irrefl, Nat.sub_diag. simpl.
  unfold Js.slice_first. rewrite firstn_all.
  rewrite slice_last_skipn, Nat.sub_diag.
  - reflexivity.
  - destruct prices; [congruence | simpl; lia].
Qed.

Lemma calculateEMA_full_window_is_SMA_witness :
  TechnicalIndicators.calculateEMA sample_prices (length sample_prices) =
  TechnicalIndicators.calculateSMA sample_prices (length sample_prices).
Proof.
  apply (calculateEMA_full_window_is_SMA sample_prices).
  intro H. discriminate H.
Defined.

(** ** RSI: its window and its lower end *)

Lemma deltas_app (older recent : list Q) (p : Q) :
  (Spec.deltas (older ++ p :: recent)
   = Spec.deltas (older ++ [p]) ++ Spec.deltas (p :: recent))%list.
Proof.
  induction older as [|x older IH].
  - reflexivity.
  - destruct older as [|y older'].
    + destruct recent; reflexivity.
    + change (Spec.deltas ((x :: y :: older') ++ p :: recent))
        with ((y - x) :: Spec.deltas ((y :: older') ++ p :: recent)).
      change (Spec.deltas ((x :: y :: older') ++ [p]))
        with ((y - x) :: Spec.deltas ((y :: older') ++ [p])).
      rewrite IH. reflexivity.
Qed.

Lemma trailing_app (n : nat) (xs ys : list Q) :
  length ys = n -> Spec.trailing n (xs ++ ys) = ys.
Proof.
  intro H. rewrite trailing_skipn, length_app, skipn_app.
  replace (length xs + length ys - n)%nat with (length xs) by lia.
  rewrite skipn_all, Nat.sub_diag. reflexivity.
Qed.

Lemma trailing_all (n : nat) (xs : list Q) :
  length xs = n -> Spec.trailing n xs = xs.
Proof. intro H. apply (trailing_app n [] xs H). Qed.

(** The averages of the specification read the last [period + 1] prices
    only. *)
Lemma averages_window_only (older recent : list Q) (period : nat) :
  length recent = S period ->
  Spec.avgGain (older ++ recent) period = Spec.avgGain recent period /\
  Spec.avgLoss (older ++ recent) period = Spec.avgLoss recent period.
Proof.
  intro Hlen. destruct recent as [|p recent]; [discriminate|].
  assert (D : length (Spec.deltas (p :: recent)) = period).
  { rewrite deltas_length. simpl in *. lia. }
  unfold Spec.avgGain, Spec.avgLoss.
  rewrite deltas_app, !map_app.
  rewrite !trailing_app, !trailing_all by (rewrite length_map; exact D).
  split; reflexivity.
Qed.

(** calculateRSI reads the last [period + 1] prices only: older bars in
    front of them do not change the result. *)
Theorem calculateRSI_window_only (older recent : list Q) (period : nat) :
  (1 <= period)%nat ->
  length recent = S period ->
  exists r r',
    TechnicalIndicators.calculateRSI (older ++ recent) period = Some r /\
    TechnicalIndicators.calculateRSI recent period = Some r' /\
    r == r'.
Proof.
  intros Hp Hlen.
  destruct (calculateRSI_spec (older ++ recent) period Hp) as (r & Hr & Sr & _).
  { rewrite length_app. lia. }
  destruct (calculateRSI_spec recent period Hp) as (r' & Hr' & Sr' & _).
  { lia. }
  exists r, r'. split; [exact Hr|]. split; [exact Hr'|].
  rewrite Sr, Sr'. unfold Spec.rsi.
  destruct (averages_window_only older recent period Hlen) as [-> ->].
  reflexivity.
Qed.

Lemma calculateRSI_window_only_witness :
  exists r r',
    TechnicalIndicators.calculateRSI ([10; 11] ++ [12; 11; 13; 14]) 3 = Some r /\
    TechnicalIndicators.calculateRSI [12; 11; 13; 14] 3 = Some r' /\
    r == r'.
Proof.
  apply (calculateRSI_window_only [10; 11] [12; 11; 13; 14] 3).
  - lia.
  - reflexivity.
Defined.

Lemma avgGain_zero_of_falling (prices : list Q) (period : nat) :
  Forall (fun delta => delta <= 0) (Spec.deltas prices) ->
  Spec.avgGain prices period == 0.
Proof.
  intro H. unfold Spec.avgGain. rewrite total_zero.
  - unfold Qdiv. ring.
  - rewrite trailing_skipn. apply Forall_skipn. apply Forall_forall.
    intros x Hx. apply in_map_iff in Hx. destruct Hx as (d & <- & Hd).
    rewrite Forall_forall in H. specialize (H d Hd).
    unfold Spec.gain. rewrite Q.max_r; [reflexivity | exact H].
Qed.

(** On a series that never rises and has a loss in its window,
    calculateRSI is 0. *)
Theorem calculateRSI_falling_is_zero (prices : list Q) (period : nat) :
  (1 <= period)%nat ->
  (period + 1 <= length prices)%nat ->
  Forall (fun delta => delta <= 0) (Spec.deltas prices) ->
  ~ Spec.avgLoss prices period == 0 ->
  exists r,
    TechnicalIndicators.calculateRSI prices period = Some r /\ r == 0.
Proof.
  intros Hp Hlen Hfall Hloss.
  destruct (calculateRSI_spec prices period Hp Hlen) as (r & Hr & Sr & _).
  exists r. split; [exact Hr|]. rewrite Sr. unfold Spec.rsi.
  destruct (Qeq_bool (Spec.avgLoss prices period) 0) eqn:E.
  { apply Qeq_bool_iff in E. contradiction. }
  rewrite (avgGain_zero_of_falling prices period Hfall).
  field. exact Hloss.
Qed.

Lemma calculateRSI_falling_is_zero_witness :
  exists r,
    TechnicalIndicators.calculateRSI [5; 4; 3; 2] 3 = Some r /\ r == 0.
Proof.
  apply (calculateRSI_falling_is_zero [5; 4; 3; 2] 3).
  - lia.
  - simpl. lia.
  - simpl. repeat constructor; unfold Qle; simpl; lia.
  - vm_compute. intro H. discriminate H.
Defined.

(** ** MACD: the two versions *)

(** The two versions of calculateMACD agree: the one of the stock service
    returns the [macd] field of what the one of the controller returns, and
    [null] exactly when that one does; the object of the controller never
    carries a signal line or a histogram. *)
Theorem calculateMACD_versions_agree (prices : list Q) (fast slow : nat) :
  StockService.calculateMACD prices fast slow =
  option_map TechnicalIndicators.macd
             (TechnicalIndicators.calculateMACD prices fast slow) /\
  (forall m,
     TechnicalIndicators.calculateMACD prices fast slow = Some m ->
     TechnicalIndicators.signal m = None /\
     TechnicalIndicators.histogram m = None).
Proof.
  unfold StockService.calculateMACD, TechnicalIndicators.calculateMACD,
    StockService.calculateEMA.
  destruct (length prices <? slow)%nat.
  { split; [reflexivity | intros m H; discriminate H]. }
  destruct (TechnicalIndicators.calculateEMA prices fast) as [e12|],
           (TechnicalIndicators.calculateEMA prices slow) as [e26|];
    simpl;
    try destruct (Qeq_bool e12 0); try destruct (Qeq_bool e26 0); simpl;
    (split; [reflexivity | intros m H; try discriminate H]);
    injection H as <-; split; reflexivity.
Qed.

(** ** Bollinger bands: their order *)

(** Whenever calculateBollingerBands returns bands for a period of at least
    one, the middle one is the simple moving average of that period, and
    for a multiplier that is not negative the bands are in the order lower,
    middle, upper. *)
Theorem bollinger_bands_ordered (Math_sqrt : Q -> Q) (prices : list Q)
        (period : nat) (multiplier : Q) (b : TechnicalIndicators.Bands) :
  (1 <= period)%nat ->
  (forall x, 0 <= Math_sqrt x) ->
  0 <= multiplier ->
  TechnicalIndicators.calculateBollingerBands Math_sqrt prices period multiplier
  = Some b ->
  TechnicalIndicators.calculateSMA prices period
  = Some (TechnicalIndicators.middle b) /\
  TechnicalIndicators.lower b <= TechnicalIndicators.middle b /\
  TechnicalIndicators.middle b <= TechnicalIndicators.upper b.
Proof.
  intros _ Hsqrt Hm H.
  unfold TechnicalIndicators.calculateBollingerBands in H.
  destruct (length prices <? period)%nat; [discriminate|].
  destruct (TechnicalIndicators.calculateSMA prices period) as [sma|];
    [|discriminate].
  simpl in H. destruct (Qeq_bool sma 0); [discriminate|].
  injection H as <-. simpl.
  set (sd := Math_sqrt _).
  assert (W : 0 <= multiplier * sd)
    by (apply Qmult_le_0_compat; [exact Hm | apply Hsqrt]).
  split; [reflexivity|]. split; lra.
Qed.

Lemma isqrt_nonneg (x : Q) : 0 <= isqrt x.
Proof.
  unfold isqrt, Qle. simpl. rewrite Z.mul_1_r. apply Z.sqrt_nonneg.
Qed.

Lemma bollinger_bands_ordered_witness :
  exists b,
    TechnicalIndicators.calculateBollingerBands isqrt [1; 2; 3; 6] 4 2
    = Some b /\
    TechnicalIndicators.calculateSMA [1; 2; 3; 6] 4
    = Some (TechnicalIndicators.middle b) /\
    TechnicalIndicators.lower b <= TechnicalIndicators.middle b /\
    TechnicalIndicators.middle b <= TechnicalIndicators.upper b.
Proof.
  eexists. split; [reflexivity|].
  apply (bollinger_bands_ordered isqrt [1; 2; 3; 6] 4 2).
  - lia.
  - exact isqrt_nonneg.
  - unfold Qle. simpl. lia.
  - reflexivity.
Defined.

Lemma calculateMACD_positive_prices_witness :
  exists e12 e26,
    TechnicalIndicators.calculateEMA (repeat 3 30) 12 = Some e12 /\
    TechnicalIndicators.calculateEMA (repeat 3 30) 26 = Some e26 /\
    TechnicalIndicators.calculateMACD (repeat 3 30) 12 26 =
      Some {| TechnicalIndicators.macd := e12 - e26;
              TechnicalIndicators.signal := None;
              TechnicalIndicators.histogram := None |} /\
    StockService.calculateMACD (repeat 3 30) 12 26 = Some (e12 - e26).
Proof.
  apply (calculateMACD_positive_prices (repeat 3 30)).
  - apply Forall_forall. intros x Hx. apply repeat_spec in Hx. subst x.
    reflexivity.
  - rewrite repeat_length. lia.
Defined.

(** ** The indicator snapshot *)

Lemma calculateSMA_null_iff (prices : list Q) (period : nat) :
  TechnicalIndicators.calculateSMA prices period = None <->
  (length prices < period)%nat.
Proof.
  unfold TechnicalIndicators.calculateSMA.
  destruct (length prices <? period)%nat eqn:E.
  - apply Nat.ltb_lt in E. tauto.
  - apply Nat.ltb_ge in E. split; [discriminate | lia].
Qed.

Lemma calculateEMA_null_iff (prices : list Q) (period : nat) :
  TechnicalIndicators.calculateEMA prices period = None <->
  (length prices < period)%nat.
Proof.
  unfold TechnicalIndicators.calculateEMA.
  destruct (length prices <? period)%nat eqn:E.
  - apply Nat.ltb_lt in E. tauto.
  - apply Nat.ltb_ge in E. split; [discriminate | lia].
Qed.

Lemma calculateRSI_null_iff (prices : list Q) (period : nat) :
  (1 <= period)%nat ->
  TechnicalIndicators.calculateRSI prices period = None <->
  (length prices < period + 1)%nat.
Proof.
  intro Hp. split.
  - intro H. destruct (Nat.lt_ge_cases (length prices) (period + 1)) as [L|L];
      [exact L|].
    destruct (calculateRSI_spec prices period Hp L) as (r & Hr & _).
    congruence.
  - intro H. unfold TechnicalIndicators.calculateRSI.
    apply Nat.ltb_lt in H. rewrite H. reflexivity.
Qed.

Lemma calculateSMA_pos (prices : list Q) (period : nat) (v : Q) :
  (1 <= period)%nat ->
  Forall (fun p => 0 < p) prices ->
  TechnicalIndicators.calculateSMA prices period = Some v ->
  0 < v.
Proof.
  intros Hp Hpos Hv. unfold TechnicalIndicators.calculateSMA in Hv.
  destruct (length prices <? period)%nat eqn:E; [discriminate|].
  apply Nat.ltb_ge in E. injection Hv as <-.
  apply Qlt_shift_div_l; [apply of_nat_pos; exact Hp|].
  rewrite Qmult_0_l, sum_total. apply total_pos.
  - intro N. apply (f_equal (@length Q)) in N.
    rewrite slice_last_length in N by assumption. simpl in N. lia.
  - rewrite slice_last_skipn by exact Hp. apply Forall_skipn. exact Hpos.
Qed.

Section SnapshotFacts.

Variable Math_sqrt : Q -> Q.
Variable closePrices : list Q.

(** In the snapshot of getStockHistory a MACD line is the difference of the
    two exponential averages of the same snapshot, and the middle band is
    its twenty-bar simple average. *)
Theorem snapshot_consistent :
  let s := StockController.indicators Math_sqrt closePrices in
  (forall m,
     StockController.macd s = Some m ->
     exists e12 e26,
       StockController.ema12 s = Some e12 /\
       StockController.ema26 s = Some e26 /\
       TechnicalIndicators.macd m = e12 - e26) /\
  (forall b,
     StockController.bollingerBands s = Some b ->
     StockController.sma20 s = Some (TechnicalIndicators.middle b)).
Proof.
  simpl. split.
  - intros m H. unfold TechnicalIndicators.calculateMACD in H.
    destruct (length closePrices <? 26)%nat; [discriminate|].
    destruct (TechnicalIndicators.calculateEMA closePrices 12) as [e12|];
      [|discriminate].
    destruct (TechnicalIndicators.calculateEMA closePrices 26) as [e26|];
      [|simpl in H; rewrite orb_true_r in H; discriminate].
    simpl in H.
    destruct (Qeq_bool e12 0 || Qeq_bool e26 0); [discriminate|].
    injection H as <-. exists e12, e26. auto.
  - intros b H. unfold TechnicalIndicators.calculateBollingerBands in H.
    destruct (length closePrices <? 20)%nat; [discriminate|].
    destruct (TechnicalIndicators.calculateSMA closePrices 20) as [sma|];
      [|discriminate].
    simpl in H. destruct (Qeq_bool sma 0); [discriminate|].
    injection H as <-. reflexivity.
Qed.

Hypothesis positive : Forall (fun p => 0 < p) closePrices.

(** On positive closes every indicator of the snapshot is a number from its
    own number of bars on, and [null] below it: 12 and 26 bars for the
    exponential averages, 15 for the RSI, 20 and 50 for the simple averages,
    20 for the bands, 26 for the MACD. *)
Theorem snapshot_thresholds :
  let s := StockController.indicators Math_sqrt closePrices in
  (StockController.ema12 s <> None <-> (12 <= length closePrices)%nat) /\
  (StockController.rsi s <> None <-> (15 <= length closePrices)%nat) /\
  (StockController.sma20 s <> None <-> (20 <= length closePrices)%nat) /\
  (StockController.bollingerBands s <> None <->
   (20 <= length closePrices)%nat) /\
  (StockController.ema26 s <> None <-> (26 <= length closePrices)%nat) /\
  (StockController.macd s <> None <-> (26 <= length closePrices)%nat) /\
  (StockController.sma50 s <> None <-> (50 <= length closePrices)%nat).
Proof.
  simpl.
  split; [rewrite calculateEMA_null_iff; lia|].
  split; [rewrite calculateRSI_null_iff by lia; lia|].
  split; [rewrite calculateSMA_null_iff; lia|].
  split.
  { unfold TechnicalIndicators.calculateBollingerBands.
    destruct (length closePrices <? 20)%nat eqn:E.
    - apply Nat.ltb_lt in E. split; [congruence | lia].
    - apply Nat.ltb_ge in E.
      destruct (TechnicalIndicators.calculateSMA closePrices 20) as [sma|] eqn:S.
      + assert (P : 0 < sma) by (apply (calculateSMA_pos closePrices 20); auto; lia).
        simpl. destruct (Qeq_bool sma 0) eqn:Z.
        * apply Qeq_bool_iff in Z. lra.
        * split; [intros _; exact E | intros _ H; discriminate H].
      + apply calculateSMA_null_iff in S. lia. }
  split; [rewrite calculateEMA_null_iff; lia|].
  split; [|rewrite calculateSMA_null_iff; lia].
  split.
  - intro H. destruct (Nat.lt_ge_cases (length closePrices) 26) as [L|L];
      [|exact L].
    exfalso. apply H. unfold TechnicalIndicators.calculateMACD.
    apply Nat.ltb_lt in L. rewrite L. reflexivity.
  - intros L H.
    destruct (TechnicalIndicators.calculateEMA closePrices 12) as [e12|] eqn:H12;
      [|apply calculateEMA_null_iff in H12; lia].
    destruct (TechnicalIndicators.calculateEMA closePrices 26) as [e26|] eqn:H26;
      [|apply calculateEMA_null_iff in H26; lia].
    assert (P12 : 0 < e12)
      by (apply (calculateEMA_pos closePrices 12); auto; lia).
    assert (P26 : 0 < e26)
      by (apply (calculateEMA_pos closePrices 26); auto; lia).
    destruct (calculateMACD_nonzero closePrices 12 26 e12 e26 H12 H26)
      as [M _]; [intro Z; lra | intro Z; lra |].
    congruence.
Qed.

End SnapshotFacts.

Lemma snapshot_thresholds_witness :
  let s := StockController.indicators isqrt (repeat 3 30) in
  (StockController.ema12 s <> None <-> (12 <= length (repeat 3 30))%nat) /\
  (StockController.rsi s <> None <-> (15 <= length (repeat 3 30))%nat) /\
  (StockController.sma20 s <> None <-> (20 <= length (repeat 3 30))%nat) /\
  (StockController.bollingerBands s <> None <->
   (20 <= length (repeat 3 30))%nat) /\
  (StockController.ema26 s <> None <-> (26 <= length (repeat 3 30))%nat) /\
  (StockController.macd s <> None <-> (26 <= length (repeat 3 30))%nat) /\
  (StockController.sma50 s <> None <-> (50 <= length (repeat 3 30))%nat).
Proof.
  apply (snapshot_thresholds isqrt (repeat 3 30)).
  apply Forall_forall. intros x Hx. apply repeat_spec in Hx. subst x.
  reflexivity.
Defined.

(** ** The "test alert" endpoint *)

(** testAlert answers 400 for a target value of zero, whatever the other
    fields are: the presence test [!targetValue] takes the Number 0 for a
    missing field. *)
Theorem testAlert_rejects_zero_target
        (symbol alertType condition indicatorType : string)
        (target quotePrice : Q) (closePrices : list Q) :
  target == 0 ->
  AlertTest.testAlert symbol alertType condition (Some target) indicatorType
                      quotePrice closePrices
  = AlertTest.BadRequest
      "Symbol, alert type, condition, and target value are required".
Proof.
  intro H. unfold AlertTest.testAlert, AlertTest.missing, Js.falsy.
  apply Qeq_bool_iff in H. rewrite H, !orb_true_r. reflexivity.
Qed.

Lemma testAlert_rejects_zero_target_witness :
  AlertTest.testAlert "XYZ" "price" "above" (Some 0) "" 30 []
  = AlertTest.BadRequest
      "Symbol, alert type, condition, and target value are required".
Proof.
  apply (testAlert_rejects_zero_target "XYZ" "price" "above" "" 0 30 []).
  reflexivity.
Defined.

(** testAlert never reports a trigger without a current value: whenever
    the answer carries no [currentValue] (an indicator in its warm-up, or an
    alert type without a metric), [shouldTrigger] is false.  A technical
    test on a history below the window of its indicator (15 closes for the
    RSI, 20 for the SMA, 12 for the EMA) is such an answer. *)
Theorem testAlert_no_value_no_trigger
        (symbol alertType condition indicatorType : string)
        (targetValue : option Q) (quotePrice : Q) (closePrices : list Q) :
  (forall shouldTrigger,
     AlertTest.testAlert symbol alertType condition targetValue indicatorType
                         quotePrice closePrices
     = AlertTest.Tested None shouldTrigger ->
     shouldTrigger = false) /\
  (forall currentValue shouldTrigger,
     alertType = "technical"%string ->
     (indicatorType = "rsi"%string /\ (length closePrices < 15)%nat) \/
     (indicatorType = "sma"%string /\ (length closePrices < 20)%nat) \/
     (indicatorType = "ema"%string /\ (length closePrices < 12)%nat) ->
     AlertTest.testAlert symbol alertType condition targetValue indicatorType
                         quotePrice closePrices
     = AlertTest.Tested currentValue shouldTrigger ->
     currentValue = None /\ shouldTrigger = false).
Proof.
  unfold AlertTest.testAlert.
  destruct (JsString.falsy symbol || JsString.falsy alertType
            || JsString.falsy condition || AlertTest.missing targetValue).
  { split; intros; discriminate. }
  destruct targetValue as [target|]; [|split; intros; discriminate].
  split.
  - intros st H.
    destruct (alertType =? "price")%string; [discriminate|].
    destruct (alertType =? "technical")%string; [|congruence].
    destruct (indicatorType =? "rsi")%string.
    { destruct (TechnicalIndicators.calculateRSI closePrices 14);
        [discriminate | congruence]. }
    destruct (indicatorType =? "sma")%string.
    { destruct (TechnicalIndicators.calculateSMA closePrices 20);
        [discriminate | congruence]. }
    destruct (indicatorType =? "ema")%string; [|discriminate].
    destruct (TechnicalIndicators.calculateEMA closePrices 12);
      [discriminate | congruence].
  - intros cv st -> Hshort. simpl.
    destruct Hshort as [[-> L] | [[-> L] | [-> L]]]; simpl.
    + assert (N : TechnicalIndicators.calculateRSI closePrices 14 = None)
        by (apply calculateRSI_null_iff; lia).
      rewrite N. intro H. injection H as <- <-. auto.
    + assert (N : TechnicalIndicators.calculateSMA closePrices 20 = None)
        by (apply calculateSMA_null_iff; lia).
      rewrite N. intro H. injection H as <- <-. auto.
    + assert (N : TechnicalIndicators.calculateEMA closePrices 12 = None)
        by (apply calculateEMA_null_iff; lia).
      rewrite N. intro H. injection H as <- <-. auto.
Qed.

Lemma testAlert_no_value_no_trigger_witness :
  AlertTest.testAlert "XYZ" "technical" "above" (Some 25) "sma" 30
                      sample_prices
  = AlertTest.Tested None false.
Proof.
  destruct (testAlert_no_value_no_trigger "XYZ" "technical" "above" "sma"
              (Some 25) 30 sample_prices) as [_ H].
  destruct (H None false) as [_ _].
  - reflexivity.
  - right. left. split; [reflexivity | simpl; lia].
  - reflexivity.
  - reflexivity.
Defined.

(** ** The two condition evaluators *)

(** evaluateCondition never reports both "above" and "below" for one pair
    of values, and it reports false for every condition outside its five
    names. *)
Theorem evaluateCondition_exclusive (currentValue targetValue : Q)
        (condition : string) :
  ~ (AlertController.evaluateCondition currentValue "above" targetValue = true
     /\ AlertController.evaluateCondition currentValue "below" targetValue
        = true) /\
  (~ In condition ["above"; "below"; "equals"; "crosses_above";
                   "crosses_below"]%string ->
   AlertController.evaluateCondition currentValue condition targetValue
   = false).
Proof.
  split.
  - unfold AlertController.evaluateCondition. simpl.
    rewrite gtb_gt, ltb_lt. intros [H1 H2]. lra.
  - intro H. unfold AlertController.evaluateCondition.
    repeat match goal with
           | |- context [String.eqb condition ?s] =>
               destruct (String.eqb_spec condition s);
               [exfalso; apply H; subst condition; simpl; tauto|]
           end.
    reflexivity.
Qed.

Lemma evaluateCondition_exclusive_witness :
  AlertController.evaluateCondition 20 "crossover_above" 15 = false.
Proof.
  destruct (evaluateCondition_exclusive 20 15 "crossover_above") as [_ H].
  apply H. simpl. intros [H'|[H'|[H'|[H'|[H'|[]]]]]]; discriminate H'.
Defined.

Section Evaluators.

Variable a : ExpiringAlert.t.
Variable now : Z.

(** shouldTrigger fires only on an alert that is active, has not fired and
    has not passed its expiry date: pause, the fired flag and expiry each
    override every condition. *)
Theorem shouldTrigger_needs_live_alert (currentValue : Q)
        (previousValue : option Q) :
  ExpiringAlert.shouldTrigger a now currentValue previousValue = true ->
  ExpiringAlert.isActive a = true /\
  ExpiringAlert.triggered a = false /\
  (forall e, ExpiringAlert.expiresAt a = Some e -> (now <= e)%Z).
Proof.
  unfold ExpiringAlert.shouldTrigger, ExpiringAlert.expired.
  destruct (ExpiringAlert.isActive a), (ExpiringAlert.triggered a); simpl;
    try discriminate.
  destruct (ExpiringAlert.expiresAt a) as [e|].
  - destruct (e <? now)%Z eqn:E; [discriminate|].
    apply Z.ltb_ge in E. intros _. repeat split.
    intros e' He. injection He as <-. exact E.
  - intros _. repeat split. intros e He. discriminate He.
Qed.

Hypothesis active : ExpiringAlert.isActive a = true.
Hypothesis not_triggered : ExpiringAlert.triggered a = false.
Hypothesis not_expired : ExpiringAlert.expired a now = false.

(** On a live alert shouldTrigger and evaluateCondition agree on "above"
    and "below"; on "equals" the helper of the test endpoint is the
    stricter one (tolerance 0.001 against 0.01), so whatever it reports
    equal fires in shouldTrigger too. *)
Theorem evaluators_agree (currentValue : Q) (previousValue : option Q) :
  (ExpiringAlert.condition a = "above"%string \/
   ExpiringAlert.condition a = "below"%string ->
   ExpiringAlert.shouldTrigger a now currentValue previousValue =
   AlertController.evaluateCondition currentValue (ExpiringAlert.condition a)
                                     (ExpiringAlert.targetValue a)) /\
  (ExpiringAlert.condition a = "equals"%string ->
   AlertController.evaluateCondition currentValue "equals"
                                     (ExpiringAlert.targetValue a) = true ->
   ExpiringAlert.shouldTrigger a now currentValue previousValue = true).
Proof.
  unfold ExpiringAlert.shouldTrigger, AlertController.evaluateCondition.
  rewrite active, not_triggered, not_expired. simpl. split.
  - intros [-> | ->]; reflexivity.
  - intros ->. simpl. rewrite !ltb_lt. intro H.
    eapply Qlt_trans; [exact H|]. reflexivity.
Qed.

End Evaluators.

Lemma shouldTrigger_needs_live_alert_witness :
  ExpiringAlert.isActive crossing_alert = true /\
  ExpiringAlert.triggered crossing_alert = false /\
  (forall e, ExpiringAlert.expiresAt crossing_alert = Some e -> (0 <= e)%Z).
Proof.
  apply (shouldTrigger_needs_live_alert crossing_alert 0 20 (Some 10)).
  reflexivity.
Defined.

(** A live alert on "equals" at the target 25. *)
Lemma evaluators_agree_witness :
  let a := ExpiringAlert.mk 1 "XYZ" "price" "equals" 25 None 14 "XYZ equals 25"
                            None true true false true false None None 0 None
                            None 5 in
  ExpiringAlert.shouldTrigger a 0 (250005 # 10000) None = true.
Proof.
  intro a.
  destruct (evaluators_agree a 0 eq_refl eq_refl eq_refl (250005 # 10000) None)
    as [_ H].
  apply H; reflexivity.
Defined.

Lemma shouldTrigger_crosses_above_witness :
  ExpiringAlert.shouldTrigger crossing_alert 0 20 (Some 10) = true <->
  exists previous,
    Some 10 = Some previous /\
    previous <= ExpiringAlert.targetValue crossing_alert /\
    ExpiringAlert.targetValue crossing_alert < 20.
Proof.
  apply (shouldTrigger_crosses_above crossing_alert 0); reflexivity.
Defined.

(** A live alert on a downward crossing of 15. *)
Lemma shouldTrigger_crosses_below_witness :
  let a := ExpiringAlert.mk 1 "XYZ" "price" "crosses_below" 15 None 14
                            "XYZ crosses below 15" None true true false true
                            false None None 0 None None 5 in
  ExpiringAlert.shouldTrigger a 0 10 (Some 20) = true <->
  exists previous,
    Some 20 = Some previous /\
    ExpiringAlert.targetValue a <= previous /\
    10 < ExpiringAlert.targetValue a.
Proof.
  intro a. apply (shouldTrigger_crosses_below a 0); reflexivity.
Defined.

(** ** The lifecycle of an alert *)

(** timeUntilExpiration is [null] exactly for an alert without an expiry
    date; otherwise it is the time left, never negative, and zero exactly
    from the expiry date on, so in particular for every alert that the
    status and shouldTrigger treat as expired. *)
Theorem timeUntilExpiration_spec (a : ExpiringAlert.t) (now : Z) :
  (ExpiringAlert.timeUntilExpiration a now = None <->
   ExpiringAlert.expiresAt a = None) /\
  (forall left,
     ExpiringAlert.timeUntilExpiration a now = Some left ->
     (0 <= left)%Z /\
     (left = 0%Z <->
      exists e, ExpiringAlert.expiresAt a = Some e /\ (e <= now)%Z) /\
     (forall e, ExpiringAlert.expiresAt a = Some e ->
                (0 < left)%Z -> left = (e - now)%Z)) /\
  (ExpiringAlert.expired a now = true ->
   ExpiringAlert.timeUntilExpiration a now = Some 0%Z).
Proof.
  unfold ExpiringAlert.timeUntilExpiration, ExpiringAlert.expired.
  destruct (ExpiringAlert.expiresAt a) as [e|].
  - split; [split; discriminate|]. split.
    + intros left H. injection H as <-.
      destruct (0 <? e - now)%Z eqn:E.
      * apply Z.ltb_lt in E. split; [lia|]. split.
        -- split; [lia|]. intros (e' & He & L). injection He as <-. lia.
        -- intros e' He _. injection He as <-. reflexivity.
      * apply Z.ltb_ge in E. split; [lia|]. split.
        -- split; [|reflexivity]. intros _. exists e. split; [reflexivity | lia].
        -- intros e' _ L. lia.
    + intro H. apply Z.ltb_lt in H.
      destruct (0 <? e - now)%Z eqn:E; [|reflexivity].
      apply Z.ltb_lt in E. lia.
  - split; [tauto|]. split; [intros left H | intro H]; discriminate H.
Qed.

Section Lifecycle.

Variable show_number : Q -> string.

(** reset() undoes the gate that trigger() closes: after a trigger and a
    reset the alert answers shouldTrigger as before the trigger, while its
    trigger count keeps the trigger. *)
Theorem reset_reopens_alert (a : ExpiringAlert.t) (T T' now : Z)
        (currentValue : Q) (previousValue : option Q) :
  ExpiringAlert.triggered a = false ->
  let a' := ExpiringAlert.reset show_number
                                (ExpiringAlert.trigger show_number a T) T' in
  ExpiringAlert.shouldTrigger a' now currentValue previousValue =
  ExpiringAlert.shouldTrigger a now currentValue previousValue /\
  ExpiringAlert.triggerCount a' = (ExpiringAlert.triggerCount a + 1)%Z /\
  ExpiringAlert.triggered a' = false /\
  ExpiringAlert.triggeredAt a' = None.
Proof.
  intros H a'. subst a'.
  rewrite reset_is_its_assignments, trigger_is_its_assignments.
  unfold ExpiringAlert.shouldTrigger.
  unfold ExpiringAlert.expired. simpl. rewrite H.
  repeat split.
Qed.

(** reset() of the model with a cooldown clears the cooldown at once and
    forgets the count: the alert can trigger exactly when it is active, and
    its status no longer is "triggered". *)
Theorem cooldown_reset_clears (c : CooldownAlert.t) (now : Z) :
  let c' := CooldownAlert.reset show_number c in
  CooldownAlert.canTrigger c' now = CooldownAlert.isActive c /\
  CooldownAlert.isInCooldown c' now = false /\
  CooldownAlert.triggerCount c' = 0%Z /\
  CooldownAlert.status c' <> "triggered"%string.
Proof.
  intro c'. subst c'.
  unfold CooldownAlert.canTrigger, CooldownAlert.isInCooldown,
    CooldownAlert.status. simpl.
  rewrite andb_true_r. repeat split.
  destruct (CooldownAlert.isActive c); simpl; discriminate.
Qed.

Lemma cooldown_saved_description (c : CooldownAlert.t) :
  JsString.falsy
    (CooldownAlert.description (CooldownAlert.preSave show_number c))
  = false.
Proof.
  unfold CooldownAlert.preSave. cbn [CooldownAlert.description].
  destruct (JsString.falsy (CooldownAlert.description c)) eqn:E;
    [reflexivity | exact E].
Qed.

Lemma falsy_iff_empty (s : string) :
  JsString.falsy s = false <-> s <> ""%string.
Proof.
  unfold JsString.falsy. destruct (String.eqb_spec s ""); split;
    congruence.
Qed.

(** The pre-save hook of the model with a cooldown leaves the alert with a
    description: a given one is kept as it is, a missing one is generated
    from the symbol and the condition, and running the hook again changes
    nothing more. *)
Theorem preSave_description (c : CooldownAlert.t) :
  let c' := CooldownAlert.preSave show_number c in
  CooldownAlert.description c' <> ""%string /\
  (CooldownAlert.description c <> ""%string -> c' = c) /\
  (CooldownAlert.description c = ""%string ->
   CooldownAlert.description c' =
   ("Alert for " ++ CooldownAlert.symbol c ++ " when "
      ++ CooldownAlert.conditionText show_number c)%string) /\
  CooldownAlert.preSave show_number c' = c'.
Proof.
  intro c'.
  pose proof (cooldown_saved_description c) as Hc. fold c' in Hc.
  split; [apply falsy_iff_empty; exact Hc|].
  split.
  { intro H. apply falsy_iff_empty in H. subst c'.
    unfold CooldownAlert.preSave. rewrite H. destruct c; reflexivity. }
  split.
  { intro H. subst c'. unfold CooldownAlert.preSave.
    cbn [CooldownAlert.description]. rewrite H. reflexivity. }
  unfold CooldownAlert.preSave at 1. rewrite Hc.
  subst c'. reflexivity.
Qed.

End Lifecycle.

Lemma reset_reopens_alert_witness :
  let a' := ExpiringAlert.reset show_integer_part
              (ExpiringAlert.trigger show_integer_part crossing_alert 100)
              200 in
  ExpiringAlert.shouldTrigger a' 300 20 (Some 10) =
  ExpiringAlert.shouldTrigger crossing_alert 300 20 (Some 10) /\
  ExpiringAlert.triggerCount a' =
  (ExpiringAlert.triggerCount crossing_alert + 1)%Z /\
  ExpiringAlert.triggered a' = false /\
  ExpiringAlert.triggeredAt a' = None.
Proof.
  apply (reset_reopens_alert show_integer_part crossing_alert 100 200 300
                             20 (Some 10)).
  reflexivity.
Defined.

Lemma canTrigger_after_trigger_witness :
  CooldownAlert.canTrigger
    (CooldownAlert.trigger show_integer_part hourly_alert 0) (minutes 60)
  = true <->
  (CooldownAlert.cooldownPeriod hourly_alert * 60 * 1000 <= minutes 60 - 0)%Z.
Proof.
  apply (canTrigger_after_trigger show_integer_part hourly_alert 0 (minutes 60)).
  reflexivity.
Defined.

(** ** The rate limiter *)

Lemma set_same (userRequests : Auth.Requests) (userId : string)
      (limit : Auth.Limit) :
  Auth.set userRequests userId limit userId = Some limit.
Proof. unfold Auth.set. rewrite String.eqb_refl. reflexivity. Qed.

Lemma set_other (userRequests : Auth.Requests) (userId other : string)
      (limit : Auth.Limit) :
  other <> userId ->
  Auth.set userRequests userId limit other = userRequests other.
Proof.
  intro H. unfold Auth.set.
  destruct (String.eqb_spec other userId); [contradiction | reflexivity].
Qed.

Lemma ceil_seconds_bounds (ms : Z) :
  (ms <= Auth.ceil_seconds ms * 1000 < ms + 1000)%Z.
Proof.
  unfold Auth.ceil_seconds.
  pose proof (Z.div_mod (- ms) 1000) as D.
  pose proof (Z.mod_pos_bound (- ms) 1000) as B.
  lia.
Qed.

(** The rate limiter hands on every request without a user and leaves its
    map alone; a request of one user never touches the entry of another;
    and a refusal changes nothing in the map and announces a waiting time,
    in whole seconds, that reaches the end of the user's window. *)
Theorem rateLimitByUser_isolation (maxRequests windowMs : Z)
        (userRequests : Auth.Requests) (user : option string) (now : Z) :
  let '(verdict, userRequests') :=
    Auth.rateLimitByUser maxRequests windowMs userRequests user now in
  (user = None ->
   verdict = Auth.Allowed /\ forall key, userRequests' key = userRequests key)
  /\
  (forall userId other,
     user = Some userId -> other <> userId ->
     userRequests' other = userRequests other) /\
  (forall retryAfter,
     verdict = Auth.TooManyRequests retryAfter ->
     (forall key, userRequests' key = userRequests key) /\
     exists userId limit,
       user = Some userId /\ userRequests userId = Some limit /\
       (maxRequests <= Auth.count limit)%Z /\
       (0 <= retryAfter)%Z /\
       (Auth.resetTime limit - now <= retryAfter * 1000
        < Auth.resetTime limit - now + 1000)%Z).
Proof.
  unfold Auth.rateLimitByUser.
  destruct user as [userId|].
  2:{ split; [auto|]. split; [intros; discriminate | intros; discriminate]. }
  destruct (userRequests userId) as [limit|] eqn:E.
  2:{ split; [intro H; discriminate H|]. split.
      - intros u other Hu Ho. injection Hu as <-. apply set_other. exact Ho.
      - intros r H. discriminate H. }
  destruct (Auth.resetTime limit <? now)%Z eqn:R.
  { split; [intro H; discriminate H|]. split.
    - intros u other Hu Ho. injection Hu as <-. apply set_other. exact Ho.
    - intros r H. discriminate H. }
  apply Z.ltb_ge in R.
  destruct (maxRequests <=? Auth.count limit)%Z eqn:C.
  - apply Z.leb_le in C. split; [intro H; discriminate H|]. split; [auto|].
    intros r H. injection H as <-. split; [auto|].
    exists userId, limit.
    pose proof (ceil_seconds_bounds (Auth.resetTime limit - now)) as B.
    repeat split; auto; lia.
  - split; [intro H; discriminate H|]. split.
    + intros u other Hu Ho. injection Hu as <-. apply set_other. exact Ho.
    + intros r H. discriminate H.
Qed.

(** Inside an open window: the entry of the user counts [k] requests and
    every coming request arrives before the window ends. *)
Lemma serve_in_window (maxRequests windowMs : Z) (userId : string)
      (times : list Z) :
  forall (userRequests : Auth.Requests) (k reset : Z),
    userRequests userId = Some {| Auth.count := k; Auth.resetTime := reset |} ->
    (1 <= k <= Z.max maxRequests 1)%Z ->
    Forall (fun now => (now <= reset)%Z) times ->
    let '(passed, final) :=
      Auth.serve maxRequests windowMs userId times userRequests in
    passed = Z.min (Z.of_nat (length times)) (Z.max maxRequests 1 - k) /\
    final userId =
      Some {| Auth.count := (k + passed)%Z; Auth.resetTime := reset |}.
Proof.
  induction times as [|now rest IH]; intros userRequests k reset E K H.
  - simpl. rewrite Z.add_0_r. split; [lia | exact E].
  - inversion H as [|? ? Hnow Hrest]; subst.
    cbn [Auth.serve]. unfold Auth.rateLimitByUser. rewrite E.
    cbn [Auth.resetTime Auth.count].
    replace (reset <? now)%Z with false by (symmetry; apply Z.ltb_ge; lia).
    destruct (maxRequests <=? k)%Z eqn:C.
    + apply Z.leb_le in C.
      specialize (IH userRequests k reset E K Hrest).
      destruct (Auth.serve maxRequests windowMs userId rest userRequests)
        as [passed final].
      destruct IH as [IH1 IH2]. split; [|exact IH2].
      cbn [length]. lia.
    + apply Z.leb_gt in C.
      specialize (IH (Auth.set userRequests userId
                               {| Auth.count := (k + 1)%Z;
                                  Auth.resetTime := reset |})
                     (k + 1)%Z reset (set_same _ _ _)).
      destruct (Auth.serve maxRequests windowMs userId rest
                  (Auth.set userRequests userId
                            {| Auth.count := (k + 1)%Z;
                               Auth.resetTime := reset |}))
        as [passed final].
      destruct IH as [IH1 IH2]; [lia | exact Hrest|].
      split.
      * cbn [length]. lia.
      * rewrite IH2. f_equal. f_equal. lia.
Qed.

(** Of the requests that a user sends within one window (from the first
    request to [windowMs] later), the rate limiter hands on [maxRequests]
    and no more; the first one of a window always passes, also for a limit
    below one.  The count of the user's entry is the number handed on. *)
Theorem rateLimitByUser_quota (maxRequests windowMs : Z) (userId : string)
        (first : Z) (rest : list Z) (userRequests : Auth.Requests) :
  userRequests userId = None ->
  Forall (fun now => (now <= first + windowMs)%Z) rest ->
  let '(passed, final) :=
    Auth.serve maxRequests windowMs userId (first :: rest) userRequests in
  passed = Z.min (Z.of_nat (length (first :: rest))) (Z.max maxRequests 1) /\
  final userId =
    Some {| Auth.count := passed; Auth.resetTime := (first + windowMs)%Z |}.
Proof.
  intros E H. cbn [Auth.serve]. unfold Auth.rateLimitByUser. rewrite E.
  pose proof (serve_in_window maxRequests windowMs userId rest
                (Auth.set userRequests userId
                          {| Auth.count := 1;
                             Auth.resetTime := (first + windowMs)%Z |})
                1%Z (first + windowMs)%Z (set_same _ _ _)) as S.
  destruct (Auth.serve maxRequests windowMs userId rest
              (Auth.set userRequests userId
                        {| Auth.count := 1;
                           Auth.resetTime := (first + windowMs)%Z |}))
    as [passed final].
  destruct S as [S1 S2]; [lia | exact H|].
  split.
  - cbn [length]. lia.
  - rewrite S2. reflexivity.
Qed.

Lemma rateLimitByUser_quota_witness :
  let '(passed, final) :=
    Auth.serve 2 1000 "u1" [0; 10; 20; 30]%Z Auth.no_requests in
  passed = Z.min (Z.of_nat (length [0; 10; 20; 30]%Z)) (Z.max 2 1) /\
  final "u1"%string =
    Some {| Auth.count := passed; Auth.resetTime := (0 + 1000)%Z |}.
Proof.
  apply (rateLimitByUser_quota 2 1000 "u1" 0 [10; 20; 30]%Z Auth.no_requests).
  - reflexivity.
  - repeat constructor; lia.
Defined.

(** ** The subscription check *)

(** checkSubscription answers 401 without a user; a user without a plan
    counts as "free"; among the three plans a user passes exactly when the
    plan ranks at least as high as the required one (free, premium, pro);
    and a required plan outside the three lets every user pass. *)
Theorem checkSubscription_ranks (requiredPlan : string)
        (plan : option string) :
  Auth.checkSubscription requiredPlan None = Auth.Status 401 /\
  Auth.checkSubscription requiredPlan (Some None) =
  Auth.checkSubscription requiredPlan (Some (Some "free"%string)) /\
  (forall userRank requiredRank,
     Auth.planHierarchy (Auth.planOf plan) = Some userRank ->
     Auth.planHierarchy requiredPlan = Some requiredRank ->
     (Auth.checkSubscription requiredPlan (Some plan) = Auth.Next <->
      (requiredRank <= userRank)%Z)) /\
  (Auth.planHierarchy requiredPlan = None ->
   Auth.checkSubscription requiredPlan (Some plan) = Auth.Next).
Proof.
  split; [reflexivity|]. split; [reflexivity|]. split.
  - intros i j Hi Hj. unfold Auth.checkSubscription. rewrite Hi, Hj. simpl.
    destruct (i <? j)%Z eqn:E.
    + apply Z.ltb_lt in E. split; [discriminate | lia].
    + apply Z.ltb_ge in E. tauto.
  - intro H. unfold Auth.checkSubscription. rewrite H.
    destruct (Auth.planHierarchy (Auth.planOf plan)); reflexivity.
Qed.

Lemma checkSubscription_ranks_witness :
  Auth.checkSubscription "premium" (Some (Some "pro"%string)) = Auth.Next <->
  (1 <= 2)%Z.
Proof.
  destruct (checkSubscription_ranks "premium" (Some "pro"%string))
    as (_ & _ & H & _).
  apply (H 2%Z 1%Z); reflexivity.
Defined.

(** ** The signals of a stored quote *)

Lemma signalScore_bounds (d : StockData.t) :
  let '(score, total) := StockData.signalScore d in
  (0 <= total <= 3)%Z /\ (- total <= score <= total)%Z.
Proof.
  unfold StockData.signalScore.
  destruct (negb (Js.falsy (StockData.rsiValue d)));
    destruct (StockData.rsiSignal d =? "oversold")%string;
    destruct (StockData.rsiSignal d =? "overbought")%string;
    destruct (negb (JsString.falsy (StockData.macdTrend d)));
    destruct (StockData.macdTrend d =? "bullish")%string;
    destruct (StockData.macdTrend d =? "bearish")%string;
    destruct (StockData.sma20 d) as [sma|];
    try destruct (Qeq_bool sma 0);
    try destruct (Js.gtb (StockData.priceCurrent d) sma);
    cbn; lia.
Qed.

(** The signal strength of a stored quote always lies between -1 and 1,
    and it is 0 when no indicator is set. *)
Theorem signalStrength_range (d : StockData.t) :
  - (1) <= StockData.signalStrength d /\ StockData.signalStrength d <= 1 /\
  (StockData.rsiValue d = None -> StockData.macdTrend d = ""%string ->
   StockData.sma20 d = None -> StockData.signalStrength d == 0).
Proof.
  split; [|split].
  - unfold StockData.signalStrength.
    pose proof (signalScore_bounds d) as B.
    destruct (StockData.signalScore d) as [score total].
    destruct B as [T S].
    destruct (0 <? total)%Z eqn:E; [|lra].
    apply Z.ltb_lt in E.
    apply Qle_shift_div_l; [unfold Qlt; simpl; lia|].
    assert (N : - (1) * inject_Z total == inject_Z (- total))
      by (rewrite inject_Z_opp; ring).
    rewrite N, <- Zle_Qle. lia.
  - unfold StockData.signalStrength.
    pose proof (signalScore_bounds d) as B.
    destruct (StockData.signalScore d) as [score total].
    destruct B as [T S].
    destruct (0 <? total)%Z eqn:E; [|lra].
    apply Z.ltb_lt in E.
    apply Qle_shift_div_r; [unfold Qlt; simpl; lia|].
    rewrite Qmult_1_l, <- Zle_Qle. lia.
  - intros H1 H2 H3.
    unfold StockData.signalStrength, StockData.signalScore.
    rewrite H1, H2, H3. reflexivity.
Qed.

(** shouldTriggerAlerts returns at most three triggers and never both RSI
    triggers; an RSI that is unset or exactly 0, or lies from 30 to 70,
    gives no RSI trigger at all. *)
Theorem shouldTriggerAlerts_bounds (d : StockData.t) :
  let types := map StockData.type (StockData.shouldTriggerAlerts d) in
  (length types <= 3)%nat /\
  ~ (In "rsi_overbought"%string types /\ In "rsi_oversold"%string types) /\
  ((forall rsi, StockData.rsiValue d = Some rsi ->
                rsi == 0 \/ (30 <= rsi /\ rsi <= 70)) ->
   ~ In "rsi_overbought"%string types /\ ~ In "rsi_oversold"%string types).
Proof.
  unfold StockData.shouldTriggerAlerts.
  destruct (StockData.rsiValue d) as [rsi|].
  - destruct (Qeq_bool rsi 0) eqn:Z;
      destruct (Js.gtb rsi 70) eqn:G; destruct (Js.ltb rsi 30) eqn:L;
      try (apply gtb_gt in G); try (apply ltb_lt in L);
      try (apply gtb_le in G); try (apply ltb_ge in L);
      try (exfalso; lra);
      destruct (negb (JsString.falsy (StockData.macdTrend d)));
      destruct (String.eqb_spec (StockData.macdTrend d) "bullish") as [B|B];
      try rewrite B;
      try destruct (String.eqb_spec (StockData.macdTrend d) "bearish");
      destruct (StockData.volumeAverage d) as [average|];
      try destruct (Qeq_bool average 0);
      try destruct (Js.gtb (StockData.volumeCurrent d) (average * 2));
      cbn;
      (split; [lia|]);
      (split;
       [intros [H1 H2];
        repeat match goal with
               | H : _ \/ _ |- _ => destruct H
               | H : _ = _ |- _ => discriminate H
               | H : False |- _ => destruct H
               end
       |]);
      intro H; specialize (H rsi eq_refl);
      try (apply Qeq_bool_neq in Z);
      (split; intro H';
       repeat match goal with
              | H : _ \/ _ |- _ => destruct H
              | H : _ = _ |- _ => discriminate H
              | H : False |- _ => destruct H
              | H : _ /\ _ |- _ => destruct H
              end; try contradiction; try lra).
  - destruct (negb (JsString.falsy (StockData.macdTrend d)));
      destruct (String.eqb_spec (StockData.macdTrend d) "bullish") as [B|B];
      try rewrite B;
      try destruct (String.eqb_spec (StockData.macdTrend d) "bearish");
      destruct (StockData.volumeAverage d) as [average|];
      try destruct (Qeq_bool average 0);
      try destruct (Js.gtb (StockData.volumeCurrent d) (average * 2));
      cbn;
      (split; [lia|]);
      (split;
       [intros [H1 H2];
        repeat match goal with
               | H : _ \/ _ |- _ => destruct H
               | H : _ = _ |- _ => discriminate H
               | H : False |- _ => destruct H
               end
       |]);
      intros _;
      (split; intro H';
       repeat match goal with
              | H : _ \/ _ |- _ => destruct H
              | H : _ = _ |- _ => discriminate H
              | H : False |- _ => destruct H
              end).
Qed.
